(** * turtle_brick/run_turtle.py: the RunTurtle node

    A shallow embedding of the node defined in
    [src/turtle_brick/turtle_brick/run_turtle.py] and the properties of its
    periodic callback.

    The node is a Python object whose attributes are mutated by four
    callbacks (the timer and three subscriptions) that a single-threaded
    executor runs one at a time.  The embedding is a record [Node] for the
    attributes, one function per method that takes the node and returns the
    updated node together with the messages the method sends, and a fold
    [spin] over the sequence of callbacks the executor runs.

    Python floats are kept abstract: the methods are written once over an
    interface [PyFloat] that provides the arithmetic operators and the three
    [math] functions the file calls.  Statements that only depend on which
    attribute is read or written where are proved for every implementation of
    the interface.  Statements that need laws of arithmetic are proved for the
    instance on [R], the reading of the program in exact real arithmetic, and
    say so: they are not statements about rounded sums and products.  The
    instance [binary64] runs the program on IEEE floats, and shows where the
    exact laws hold up to rounding only. *)

From Stdlib Require Import Reals Lra Lia List String QArith Qreals ZArith Floats.
From Stdlib Require Import Uint63.
Import ListNotations.

Set Implicit Arguments.

(** ** Python floats *)

(** The operations of [run_turtle.py] on numbers.  [flit q] is the float for
    the number [q] that a numeric literal denotes: a decimal literal, or an
    [int] literal once it meets a float, is stored in a message or goes
    through [float(...)].  The literals [0] and [0.0] denote the same number
    and are both [flit 0]; likewise [100.0] is [flit 100].  [float(v)] of a
    float [v] is [v] and is not written. *)
Class PyFloat (F : Type) : Type := {
  flit : Q -> F;
  fadd : F -> F -> F;
  fsub : F -> F -> F;
  fmul : F -> F -> F;
  fdiv : F -> F -> F;
  fcos : F -> F;             (* math.cos *)
  fsin : F -> F;             (* math.sin *)
  fatan2 : F -> F -> F       (* math.atan2(y, x) *)
}.

(** ** Messages *)

(** builtin_interfaces/Time, as returned by [get_clock().now().to_msg()]. *)
Record Time : Type := mkTime { sec : Z; nanosec : Z }.

Record Header : Type := mkHeader { stamp : Time; frame_id : string }.

Record Vector3 (F : Type) : Type := mkVector3 { v3_x : F; v3_y : F; v3_z : F }.

Record Point (F : Type) : Type := mkPoint { pt_x : F; pt_y : F; pt_z : F }.

Record Quaternion (F : Type) : Type :=
  mkQuaternion { q_x : F; q_y : F; q_z : F; q_w : F }.

Record Transform (F : Type) : Type :=
  mkTransform { translation : Vector3 F; rotation : Quaternion F }.

Record TransformStamped (F : Type) : Type :=
  mkTransformStamped {
    ts_header : Header;
    ts_child_frame_id : string;
    transform : Transform F }.

Record Twist (F : Type) : Type :=
  mkTwist { linear : Vector3 F; angular : Vector3 F }.

(** geometry_msgs/Pose *)
Record GPose (F : Type) : Type :=
  mkGPose { position : Point F; orientation : Quaternion F }.

Record PoseStamped (F : Type) : Type :=
  mkPoseStamped { ps_header : Header; ps_pose : GPose F }.

Record JointState (F : Type) : Type :=
  mkJointState {
    js_header : Header;
    js_name : list string;
    js_position : list F;
    js_velocity : list F;
    js_effort : list F }.

Record PoseWithCovariance (F : Type) : Type :=
  mkPoseWithCovariance { pc_pose : GPose F; pc_covariance : list F }.

Record TwistWithCovariance (F : Type) : Type :=
  mkTwistWithCovariance { tc_twist : Twist F; tc_covariance : list F }.

Record Odometry (F : Type) : Type :=
  mkOdometry {
    od_header : Header;
    od_child_frame_id : string;
    od_pose : PoseWithCovariance F;
    od_twist : TwistWithCovariance F }.

(** turtlesim/Pose *)
Record TPose (F : Type) : Type :=
  mkTPose {
    tp_x : F; tp_y : F; tp_theta : F;
    tp_linear_velocity : F; tp_angular_velocity : F }.

(** turtle_brick_interfaces/Tilt: only its field [tilt_angle] is used. *)
Record Tilt (F : Type) : Type := mkTilt { tilt_angle : F }.

(** rclpy logging severities. *)
Inductive Severity : Type := DEBUG | INFO | WARN | ERROR | FATAL.

(** What a method sends out, in the order it sends it. *)
Inductive Output (F : Type) : Type :=
| StaticTf (m : TransformStamped F)   (* self.static_broadcaster.sendTransform *)
| Tf (m : TransformStamped F)         (* self.broadcaster.sendTransform *)
| JointStates (m : JointState F)      (* self.positioncommander.publish *)
| Odom (m : Odometry F)               (* self.odometry.publish *)
| CmdVel (m : Twist F)                (* self.cmdvel.publish *)
| Log (lvl : Severity) (msg : string). (* self.get_logger() *)

Arguments Log {F} lvl msg.

(** ** The node's attributes *)

(** The attributes of [RunTurtle] that hold data, under their names in the
    source.  [turtlepose] is created by the first call of
    [update_turtlepose] and does not exist before: [None] stands for the
    missing attribute. *)
Record Node (F : Type) : Type := mkNode {
  wheel_pos : F;
  tip_pos : F;
  tip : bool;
  x : F;
  y : F;
  z : F;
  theta : F;
  world_odom_x : F;
  world_odom_y : F;
  world_odom_z : F;
  wheel_radius : F;
  world_targetX : F;
  world_targetY : F;
  targetX : F;
  targetY : F;
  wheel_omg : F;
  swivel_omg : F;
  vx : F;
  vy : F;
  frequency : F;
  dt : F;
  goalpose : PoseStamped F;
  pose : TPose F;
  turtlepose : option (TPose F)
}.

Section Attributes.
Context {F : Type}.

(** Attribute assignments, one for each attribute that a callback
    assigns. *)

Definition set_wheel_pos (v : F) (self : Node F) : Node F :=
  mkNode v (tip_pos self) (tip self) (x self) (y self) (z self) (theta self)
    (world_odom_x self) (world_odom_y self) (world_odom_z self)
    (wheel_radius self) (world_targetX self) (world_targetY self)
    (targetX self) (targetY self) (wheel_omg self) (swivel_omg self)
    (vx self) (vy self) (frequency self) (dt self)
    (goalpose self) (pose self) (turtlepose self).

Definition set_tip_pos (v : F) (self : Node F) : Node F :=
  mkNode (wheel_pos self) v (tip self) (x self) (y self) (z self) (theta self)
    (world_odom_x self) (world_odom_y self) (world_odom_z self)
    (wheel_radius self) (world_targetX self) (world_targetY self)
    (targetX self) (targetY self) (wheel_omg self) (swivel_omg self)
    (vx self) (vy self) (frequency self) (dt self)
    (goalpose self) (pose self) (turtlepose self).

Definition set_x (v : F) (self : Node F) : Node F :=
  mkNode (wheel_pos self) (tip_pos self) (tip self) v (y self) (z self)
    (theta self)
    (world_odom_x self) (world_odom_y self) (world_odom_z self)
    (wheel_radius self) (world_targetX self) (world_targetY self)
    (targetX self) (targetY self) (wheel_omg self) (swivel_omg self)
    (vx self) (vy self) (frequency self) (dt self)
    (goalpose self) (pose self) (turtlepose self).

Definition set_y (v : F) (self : Node F) : Node F :=
  mkNode (wheel_pos self) (tip_pos self) (tip self) (x self) v (z self)
    (theta self)
    (world_odom_x self) (world_odom_y self) (world_odom_z self)
    (wheel_radius self) (world_targetX self) (world_targetY self)
    (targetX self) (targetY self) (wheel_omg self) (swivel_omg self)
    (vx self) (vy self) (frequency self) (dt self)
    (goalpose self) (pose self) (turtlepose self).

Definition set_theta (v : F) (self : Node F) : Node F :=
  mkNode (wheel_pos self) (tip_pos self) (tip self) (x self) (y self)
    (z self) v
    (world_odom_x self) (world_odom_y self) (world_odom_z self)
    (wheel_radius self) (world_targetX self) (world_targetY self)
    (targetX self) (targetY self) (wheel_omg self) (swivel_omg self)
    (vx self) (vy self) (frequency self) (dt self)
    (goalpose self) (pose self) (turtlepose self).

Definition set_vx (v : F) (self : Node F) : Node F :=
  mkNode (wheel_pos self) (tip_pos self) (tip self) (x self) (y self)
    (z self) (theta self)
    (world_odom_x self) (world_odom_y self) (world_odom_z self)
    (wheel_radius self) (world_targetX self) (world_targetY self)
    (targetX self) (targetY self) (wheel_omg self) (swivel_omg self)
    v (vy self) (frequency self) (dt self)
    (goalpose self) (pose self) (turtlepose self).

Definition set_vy (v : F) (self : Node F) : Node F :=
  mkNode (wheel_pos self) (tip_pos self) (tip self) (x self) (y self)
    (z self) (theta self)
    (world_odom_x self) (world_odom_y self) (world_odom_z self)
    (wheel_radius self) (world_targetX self) (world_targetY self)
    (targetX self) (targetY self) (wheel_omg self) (swivel_omg self)
    (vx self) v (frequency self) (dt self)
    (goalpose self) (pose self) (turtlepose self).

Definition set_goalpose (v : PoseStamped F) (self : Node F) : Node F :=
  mkNode (wheel_pos self) (tip_pos self) (tip self) (x self) (y self)
    (z self) (theta self)
    (world_odom_x self) (world_odom_y self) (world_odom_z self)
    (wheel_radius self) (world_targetX self) (world_targetY self)
    (targetX self) (targetY self) (wheel_omg self) (swivel_omg self)
    (vx self) (vy self) (frequency self) (dt self)
    v (pose self) (turtlepose self).

Definition set_turtlepose (v : TPose F) (self : Node F) : Node F :=
  mkNode (wheel_pos self) (tip_pos self) (tip self) (x self) (y self)
    (z self) (theta self)
    (world_odom_x self) (world_odom_y self) (world_odom_z self)
    (wheel_radius self) (world_targetX self) (world_targetY self)
    (targetX self) (targetY self) (wheel_omg self) (swivel_omg self)
    (vx self) (vy self) (frequency self) (dt self)
    (goalpose self) (pose self) (Some v).

End Attributes.

(** ** Message constructors *)

Section Messages.
Context {F : Type} {ops : PyFloat F}.

(** The values of freshly constructed messages: numbers are [0.0], strings
    and sequences are empty, covariances are 36 zeros, and a quaternion is
    the identity [(x, y, z, w) = (0, 0, 0, 1)], the default that the
    comment in [__init__] relies on ("defaults to no rotation"). *)

Definition Header_new : Header := mkHeader (mkTime 0 0) EmptyString.

Definition Vector3_new : Vector3 F := mkVector3 (flit 0) (flit 0) (flit 0).

Definition Point_new : Point F := mkPoint (flit 0) (flit 0) (flit 0).

Definition Quaternion_new : Quaternion F :=
  mkQuaternion (flit 0) (flit 0) (flit 0) (flit 1).

Definition TransformStamped_new : TransformStamped F :=
  mkTransformStamped Header_new EmptyString
    (mkTransform Vector3_new Quaternion_new).

Definition GPose_new : GPose F := mkGPose Point_new Quaternion_new.

Definition PoseStamped_new : PoseStamped F :=
  mkPoseStamped Header_new GPose_new.

Definition Twist_new : Twist F := mkTwist Vector3_new Vector3_new.

Definition TPose_new : TPose F :=
  mkTPose (flit 0) (flit 0) (flit 0) (flit 0) (flit 0).

(** [turtle_twist(xdot, ydot, omega)] *)
Definition turtle_twist (xdot ydot omega : F) : Twist F :=
  mkTwist (mkVector3 xdot ydot (flit 0))
          (mkVector3 (flit 0) (flit 0) omega).

(** Modelled from the spec: [angle_axis_to_quaternion], imported from the
    module [quaternion] of the package, which is not among the sources.
    Given an angle [a] and a unit axis [v], the rotation is
    [q = (cos(a/2), sin(a/2) * v)]: the scalar part is [w], the vector part
    is [(x, y, z)]. *)
Definition angle_axis_to_quaternion (a : F) (v : F * F * F) : Quaternion F :=
  let '(v0, v1, v2) := v in
  let h := fdiv a (flit 2) in
  mkQuaternion (fmul (fsin h) v0) (fmul (fsin h) v1) (fmul (fsin h) v2)
               (fcos h).

End Messages.

(** ** The methods of [RunTurtle] *)

Section Methods.
Context {F : Type} {ops : PyFloat F}.

(** [RunTurtle.__init__].  [now] is the reading of the node's clock. *)
Definition __init__ (now : Time) : Node F * list (Output F) :=
  let wheel_pos0 := flit 0 in
  let tip_pos0 := flit 0 in
  let x0 := flit 0 in
  let y0 := flit 0 in
  let z0 := flit 0 in
  let theta0 := flit 0 in
  let world_odom_x0 := flit 5.55 in
  let world_odom_y0 := flit 5.55 in
  let world_odom_z0 := flit 0 in
  let world_odom_tf :=
    mkTransformStamped (mkHeader now "world") "odom"
      (mkTransform (mkVector3 world_odom_x0 world_odom_y0 world_odom_z0)
                   (rotation (transform TransformStamped_new))) in
  let wheel_radius0 := fmul (flit 0.2) (flit 1.618) in
  let world_targetX0 := flit 9 in
  let world_targetY0 := flit 7 in
  let targetX0 := fsub world_targetX0 world_odom_x0 in
  let targetY0 := fsub world_targetY0 world_odom_y0 in
  let wheel_omg0 := flit 0.8 in
  let swivel_omg0 := flit 0 in
  let vx0 := fmul (fmul wheel_radius0 wheel_omg0) (fcos theta0) in
  let vy0 := fmul (fmul wheel_radius0 wheel_omg0) (fsin theta0) in
  let frequency0 := flit 100 in
  let dt0 := fdiv (flit 1) frequency0 in
  (mkNode wheel_pos0 tip_pos0 false x0 y0 z0 theta0
     world_odom_x0 world_odom_y0 world_odom_z0
     wheel_radius0 world_targetX0 world_targetY0 targetX0 targetY0
     wheel_omg0 swivel_omg0 vx0 vy0 frequency0 dt0
     PoseStamped_new TPose_new None,
   [StaticTf world_odom_tf; Log INFO "Static Transform: world->odom"]).

(** [RunTurtle.timer_callback].  [time] is the reading of the clock at the
    start of the callback. *)
Definition timer_callback (time : Time) (self : Node F)
  : Node F * list (Output F) :=
  let self :=
    set_wheel_pos (fadd (wheel_pos self) (fmul (wheel_omg self) (dt self)))
      self in
  let self :=
    set_wheel_pos (fadd (wheel_pos self) (fmul (wheel_omg self) (dt self)))
      self in
  let self := set_x (fadd (x self) (fmul (vx self) (dt self))) self in
  let self := set_y (fadd (y self) (fmul (vy self) (dt self))) self in
  let self :=
    set_theta (fatan2 (fsub (targetY self) (y self))
                      (fsub (targetX self) (x self))) self in
  let self :=
    set_vx (fmul (fmul (wheel_radius self) (wheel_omg self))
                 (fcos (theta self))) self in
  let self :=
    set_vy (fmul (fmul (wheel_radius self) (wheel_omg self))
                 (fsin (theta self))) self in
  let joints_states_msg :=
    mkJointState (mkHeader time EmptyString)
      ["wheel_axle"; "swivel"; "tip"]%string
      [wheel_pos self; theta self; tip_pos self] [] [] in
  let odom_base :=
    mkTransformStamped (mkHeader time "odom") "base_link"
      (mkTransform
         (mkVector3 (x self) (y self)
                    (v3_z (translation (transform TransformStamped_new))))
         (angle_axis_to_quaternion (flit 0) (flit 0, flit 0, flit 1))) in
  let odometry_msg :=
    mkOdometry (mkHeader time EmptyString) "base_link"
      (mkPoseWithCovariance
         (mkGPose (mkPoint (x self) (y self) (z self))
                  (angle_axis_to_quaternion (flit 0)
                                            (flit 0, flit 0, flit 1)))
         (repeat (flit 0) 36))
      (mkTwistWithCovariance
         (mkTwist (mkVector3 (vx self) (vy self) (v3_z (@Vector3_new F ops)))
                  (mkVector3 (v3_x (@Vector3_new F ops))
                             (v3_y (@Vector3_new F ops))
                             (swivel_omg self)))
         (repeat (flit 0) 36)) in
  let cmdvel_msg := turtle_twist (vx self) (vy self) (swivel_omg self) in
  (self,
   [JointStates joints_states_msg; Tf odom_base; Odom odometry_msg;
    CmdVel cmdvel_msg]).

(** [RunTurtle.update_goalpose] *)
Definition update_goalpose (data : PoseStamped F) (self : Node F)
  : Node F * list (Output F) :=
  (set_goalpose data self, []).

(** [RunTurtle.update_turtlepose] *)
Definition update_turtlepose (data : TPose F) (self : Node F)
  : Node F * list (Output F) :=
  (set_turtlepose data self, []).

(** [RunTurtle.update_tilt] *)
Definition update_tilt (data : Tilt F) (self : Node F)
  : Node F * list (Output F) :=
  (set_tip_pos (tilt_angle data) self, []).

End Methods.

(** ** The executor *)

(** [rclpy.spin(node)] runs the node's callbacks one after the other, each to
    completion: a timer expiry runs [timer_callback], a message on
    [/goal_pose], [turtle1/pose] or [tilt] runs the subscription's handler. *)
Inductive Event (F : Type) : Type :=
| Tick (time : Time)
| GoalMsg (data : PoseStamped F)
| PoseMsg (data : TPose F)
| TiltMsg (data : Tilt F).

Arguments Tick {F} time.

Section Executor.
Context {F : Type} {ops : PyFloat F}.

Definition dispatch (e : Event F) (self : Node F)
  : Node F * list (Output F) :=
  match e with
  | Tick time => timer_callback time self
  | GoalMsg data => update_goalpose data self
  | PoseMsg data => update_turtlepose data self
  | TiltMsg data => update_tilt data self
  end.

Fixpoint spin (evs : list (Event F)) (self : Node F)
  : Node F * list (Output F) :=
  match evs with
  | [] => (self, [])
  | e :: evs' =>
      let '(self1, out1) := dispatch e self in
      let '(self2, out2) := spin evs' self1 in
      (self2, out1 ++ out2)
  end.

(** [main]: construct the node, then spin. *)
Definition main (now : Time) (evs : list (Event F))
  : Node F * list (Output F) :=
  let '(node, out0) := __init__ now in
  let '(node', out) := spin evs node in
  (node', out0 ++ out).

(** The node after construction and after a run of callbacks. *)
Definition node_after (now : Time) (evs : list (Event F)) : Node F :=
  fst (main now evs).

(** The attributes that no callback assigns. *)
Definition constants (self : Node F) : list F :=
  [world_odom_x self; world_odom_y self; world_odom_z self;
   wheel_radius self; world_targetX self; world_targetY self;
   targetX self; targetY self; wheel_omg self; swivel_omg self;
   frequency self; dt self].

(** The velocity attributes are the ones of the heading attribute. *)
Definition velocity_of_heading (self : Node F) : Prop :=
  vx self =
    fmul (fmul (wheel_radius self) (wheel_omg self)) (fcos (theta self))
  /\ vy self =
    fmul (fmul (wheel_radius self) (wheel_omg self)) (fsin (theta self)).

(** Observations on what was sent. *)

Definition static_tfs (out : list (Output F)) : list (TransformStamped F) :=
  flat_map (fun o => match o with StaticTf m => [m] | _ => [] end) out.

Definition tfs (out : list (Output F)) : list (TransformStamped F) :=
  flat_map (fun o => match o with Tf m => [m] | _ => [] end) out.

Definition joint_states (out : list (Output F)) : list (JointState F) :=
  flat_map (fun o => match o with JointStates m => [m] | _ => [] end) out.

Definition odoms (out : list (Output F)) : list (Odometry F) :=
  flat_map (fun o => match o with Odom m => [m] | _ => [] end) out.

Definition cmd_vels (out : list (Output F)) : list (Twist F) :=
  flat_map (fun o => match o with CmdVel m => [m] | _ => [] end) out.

Definition ticks (evs : list (Event F)) : nat :=
  List.length
    (filter (fun e => match e with Tick _ => true | _ => false end) evs).

End Executor.

(** ** Exact real arithmetic *)

Open Scope R_scope.

(** [math.atan2(y, x)] on the reals: the angle in (-PI, PI] of the point
    [(x, y)], and [0] at the origin. *)
Definition atan2 (y x : R) : R :=
  if Rlt_dec 0 x then atan (y / x)
  else if Rlt_dec x 0 then
    if Rle_dec 0 y then atan (y / x) + PI else atan (y / x) - PI
  else if Rlt_dec 0 y then PI / 2
  else if Rlt_dec y 0 then - PI / 2
  else 0.

(** The reading of the program in exact real arithmetic: no rounding, no
    overflow, no signed zeros. *)
#[export] Instance R_PyFloat : PyFloat R := {
  flit := Q2R;
  fadd := Rplus;
  fsub := Rminus;
  fmul := Rmult;
  fdiv := Rdiv;
  fcos := cos;
  fsin := sin;
  fatan2 := atan2
}.


(** Factorials in [Z], to evaluate the polynomial bounds of [sin] and
    [cos]. *)
Fixpoint zfact (n : nat) : Z :=
  match n with
  | O => 1%Z
  | S k => (Z.of_nat (S k) * zfact k)%Z
  end.

(** ** Concrete nodes and messages *)

Definition epoch : Time := mkTime 0 0.

(** A node at rest on its goal. *)
Definition node_on_goal : Node R :=
  mkNode 0 0 false 1 2 0 0
    0 0 0
    1 1 2 1 2
    1 0 0 0 100 (1 / 100)
    PoseStamped_new TPose_new None.

(** A goal message for the point (0, 5). *)
Definition goal_0_5 : PoseStamped R :=
  mkPoseStamped (mkHeader epoch "map")
    (mkGPose (mkPoint 0 5 0) (mkQuaternion 0 0 0 1)).

Set Warnings "-inexact-float".

(** Messages and a node over binary64 floats.  [node64] carries the values
    that [__init__] assigns ([math.cos(0)] is [1.0], [math.sin(0)] is
    [0.0]). *)
Definition goal_inf : PoseStamped float :=
  mkPoseStamped (mkHeader epoch "map")
    (mkGPose (mkPoint infinity 7%float 0%float)
             (mkQuaternion 0%float 0%float 0%float 1%float)).

Definition goal_nan : PoseStamped float :=
  mkPoseStamped (mkHeader epoch "map")
    (mkGPose (mkPoint 1%float nan 0%float)
             (mkQuaternion 0%float 0%float 0%float 1%float)).

Definition pose_inf : TPose float :=
  mkTPose neg_infinity 0%float 0%float 0%float 0%float.

Definition goalpose64 : PoseStamped float :=
  mkPoseStamped (mkHeader (mkTime 0 0) EmptyString)
    (mkGPose (mkPoint 0%float 0%float 0%float)
             (mkQuaternion 0%float 0%float 0%float 1%float)).

Definition node64 : Node float :=
  let r := (0.2 * 1.618)%float in
  let w := 0.8%float in
  mkNode 0%float 0%float false 0%float 0%float 0%float 0%float
    5.55%float 5.55%float 0%float
    r 9%float 7%float (9 - 5.55)%float (7 - 5.55)%float
    w 0%float (r * w * 1)%float (r * w * 0)%float 100%float (1 / 100)%float
    goalpose64
    (mkTPose 0%float 0%float 0%float 0%float 0%float) None.

(** ** Observations on a run *)

Section Observations.
Context {F : Type} {ops : PyFloat F}.

(** The attributes that the tick integrates. *)
Definition motion (self : Node F) : list F :=
  [wheel_pos self; x self; y self; theta self; vx self; vy self].

(** The data of the most recent message of each subscription in a run, and
    [d] when the run has none. *)
Fixpoint last_goal (evs : list (Event F)) (d : PoseStamped F)
  : PoseStamped F :=
  match evs with
  | [] => d
  | GoalMsg data :: evs' => last_goal evs' data
  | _ :: evs' => last_goal evs' d
  end.

Fixpoint last_pose (evs : list (Event F)) (d : option (TPose F))
  : option (TPose F) :=
  match evs with
  | [] => d
  | PoseMsg data :: evs' => last_pose evs' (Some data)
  | _ :: evs' => last_pose evs' d
  end.

Fixpoint last_tilt (evs : list (Event F)) (d : F) : F :=
  match evs with
  | [] => d
  | TiltMsg data :: evs' => last_tilt evs' (tilt_angle data)
  | _ :: evs' => last_tilt evs' d
  end.

Definition logs (out : list (Output F)) : list (Severity * string) :=
  flat_map (fun o => match o with Log l m => [(l, m)] | _ => [] end) out.

End Observations.

(** The distance from the position to the target, and the length
    [wheel_radius * wheel_omg * dt] of one integration step. *)
Definition goal_distance (self : Node R) : R :=
  R_sqrt.sqrt ((targetX self - x self) ^ 2 + (targetY self - y self) ^ 2).

Definition step_length (self : Node R) : R :=
  wheel_radius self * wheel_omg self * dt self.

(** The heading is the bearing of the target and the velocity is the one of
    the heading: the state in which a tick leaves the node. *)
Definition aimed (self : Node R) : Prop :=
  theta self = atan2 (targetY self - y self) (targetX self - x self)
  /\ vx self = wheel_radius self * wheel_omg self * cos (theta self)
  /\ vy self = wheel_radius self * wheel_omg self * sin (theta self).

(** A run with three ticks and a goal message in between. *)
Definition three_ticks : list (Event R) :=
  [Tick epoch; GoalMsg goal_0_5; Tick (mkTime 0 10000000);
   Tick (mkTime 0 20000000)].

(** ** Binary64 arithmetic *)

(** Python's floats are IEEE binary64 numbers, the primitive floats of Rocq,
    and its operators on them are the correctly rounded ones.  A numeric
    literal denotes the binary64 number nearest to it: the numerators and
    denominators of the literals of [run_turtle.py] are below 2^53, hence
    floats themselves, and their quotient is rounded once. *)
Definition Z2float (n : Z) : float :=
  match n with
  | Z0 => 0%float
  | Zpos _ => of_uint63 (Uint63.of_Z n)
  | Zneg p => (- of_uint63 (Uint63.of_Z (Zpos p)))%float
  end.

Definition literal64 (q : Q) : float :=
  (Z2float (Qnum q) / Z2float (Zpos (Qden q)))%float.

(** [math.atan2], [math.cos] and [math.sin] return what the C library
    returns, which is not determined by IEEE 754.  The tables hold the values
    that CPython returns with the GNU C library at the arguments that the
    constructor and the first five ticks of a run pass; [nan] stands for
    every other argument, and no statement below depends on it. *)
Definition libm_atan2_table : list (float * float * float) :=
  [ (0x1.7333333333334p+0, 0x1.b944c52bee9b6p+1, 0x1.97b2aed20000ap-2);
    (0x1.72f16bfbd417fp+0, 0x1.b8f69357d168fp+1, 0x1.97b2aed20000ap-2);
    (0x1.72afa4c474fcbp+0, 0x1.b8a86183b4369p+1, 0x1.97b2aed20000bp-2);
    (0x1.726ddd8d15e16p+0, 0x1.b85a2faf97043p+1, 0x1.97b2aed20000ap-2);
    (0x1.722c1655b6c61p+0, 0x1.b80bfddb79d1dp+1, 0x1.97b2aed20000ap-2)
  ]%float.

Definition libm_cos_table : list (float * float) :=
  [ (0, 1);
    (0x1.97b2aed20000ap-2, 0x1.d7f3e7d042a0fp-1);
    (0x1.97b2aed20000bp-2, 0x1.d7f3e7d042a0ep-1) ]%float.

Definition libm_sin_table : list (float * float) :=
  [ (0, 0);
    (0x1.97b2aed20000ap-2, 0x1.8d03069636f89p-2);
    (0x1.97b2aed20000bp-2, 0x1.8d03069636f8ap-2) ]%float.

Fixpoint lookup1 (table : list (float * float)) (a : float) : float :=
  match table with
  | [] => nan
  | (a0, v) :: rest => if (a =? a0)%float then v else lookup1 rest a
  end.

Fixpoint lookup2 (table : list (float * float * float)) (b a : float)
  : float :=
  match table with
  | [] => nan
  | (b0, a0, v) :: rest =>
      if ((b =? b0) && (a =? a0))%float%bool then v else lookup2 rest b a
  end.

Definition libm_cos (a : float) : float := lookup1 libm_cos_table a.
Definition libm_sin (a : float) : float := lookup1 libm_sin_table a.
Definition libm_atan2 (b a : float) : float := lookup2 libm_atan2_table b a.

#[export] Instance binary64 : PyFloat float := {
  flit := literal64;
  fadd := PrimFloat.add;
  fsub := PrimFloat.sub;
  fmul := PrimFloat.mul;
  fdiv := PrimFloat.div;
  fcos := libm_cos;
  fsin := libm_sin;
  fatan2 := libm_atan2
}.


(** ** Which attributes each callback reads and writes *)

(** Runs the callbacks on a node by unfolding the assignments. *)
Ltac run_callbacks :=
  cbv [timer_callback update_goalpose update_turtlepose update_tilt dispatch
       set_wheel_pos set_tip_pos set_x set_y set_theta set_vx set_vy
       set_goalpose set_turtlepose
       wheel_pos tip_pos tip x y z theta world_odom_x world_odom_y
       world_odom_z wheel_radius world_targetX world_targetY targetX targetY
       wheel_omg swivel_omg vx vy frequency dt goalpose pose turtlepose
       fst snd].

Ltac run_callbacks_in H :=
  cbv [timer_callback update_goalpose update_turtlepose update_tilt dispatch
       set_wheel_pos set_tip_pos set_x set_y set_theta set_vx set_vy
       set_goalpose set_turtlepose
       wheel_pos tip_pos tip x y z theta world_odom_x world_odom_y
       world_odom_z wheel_radius world_targetX world_targetY targetX targetY
       wheel_omg swivel_omg vx vy frequency dt goalpose pose turtlepose
       fst snd] in H.

Section Structure.
Context {F : Type} {ops : PyFloat F}.

Lemma dispatch_constants (e : Event F) (self : Node F) :
  constants (fst (dispatch e self)) = constants self.
Proof. destruct e; reflexivity. Qed.

Lemma spin_cons (e : Event F) (evs : list (Event F)) (self : Node F) :
  spin (e :: evs) self =
    (fst (spin evs (fst (dispatch e self))),
     snd (dispatch e self) ++ snd (spin evs (fst (dispatch e self)))).
Proof.
  cbn [spin]. destruct (dispatch e self) as [s1 o1]. cbn [fst snd].
  destruct (spin evs s1) as [s2 o2]. reflexivity.
Qed.

Lemma spin_app (evs1 evs2 : list (Event F)) (self : Node F) :
  spin (evs1 ++ evs2) self =
    (fst (spin evs2 (fst (spin evs1 self))),
     snd (spin evs1 self) ++ snd (spin evs2 (fst (spin evs1 self)))).
Proof.
  revert self. induction evs1 as [|e evs1 IH]; intros self.
  - cbn [app spin fst snd]. destruct (spin evs2 self); reflexivity.
  - cbn [app]. rewrite !spin_cons. cbn [fst snd]. rewrite IH.
    cbn [fst snd]. rewrite app_assoc. reflexivity.
Qed.

Lemma spin_constants (evs : list (Event F)) (self : Node F) :
  constants (fst (spin evs self)) = constants self.
Proof.
  revert self. induction evs as [|e evs IH]; intros self.
  - reflexivity.
  - rewrite spin_cons. cbn [fst]. rewrite IH. apply dispatch_constants.
Qed.

Lemma main_eq (now : Time) (evs : list (Event F)) :
  main now evs =
    (fst (spin evs (fst (__init__ now))),
     snd (__init__ now) ++ snd (spin evs (fst (__init__ now)))).
Proof.
  unfold main. destruct (__init__ now) as [n o]. cbn [fst snd].
  destruct (spin evs n); reflexivity.
Qed.

Lemma node_after_constants (now : Time) (evs : list (Event F)) :
  constants (node_after now evs) = constants (fst (__init__ now)).
Proof.
  unfold node_after. rewrite main_eq. cbn [fst]. apply spin_constants.
Qed.

(** Only [__init__] sends on the static broadcaster. *)
Lemma dispatch_static_tfs (e : Event F) (self : Node F) :
  static_tfs (snd (dispatch e self)) = [].
Proof. destruct e; reflexivity. Qed.

Lemma static_tfs_app (o1 o2 : list (Output F)) :
  static_tfs (o1 ++ o2) = static_tfs o1 ++ static_tfs o2.
Proof. unfold static_tfs. apply flat_map_app. Qed.

Lemma spin_static_tfs (evs : list (Event F)) (self : Node F) :
  static_tfs (snd (spin evs self)) = [].
Proof.
  revert self. induction evs as [|e evs IH]; intros self.
  - reflexivity.
  - rewrite spin_cons. cbn [snd]. rewrite static_tfs_app, IH.
    rewrite dispatch_static_tfs. reflexivity.
Qed.

(** What one run of [timer_callback] assigns, attribute by attribute. *)
Lemma timer_callback_node (time : Time) (self : Node F) :
  fst (timer_callback time self) =
    let wheel_pos' :=
      fadd (fadd (wheel_pos self) (fmul (wheel_omg self) (dt self)))
           (fmul (wheel_omg self) (dt self)) in
    let x' := fadd (x self) (fmul (vx self) (dt self)) in
    let y' := fadd (y self) (fmul (vy self) (dt self)) in
    let theta' :=
      fatan2 (fsub (targetY self) y') (fsub (targetX self) x') in
    let vx' :=
      fmul (fmul (wheel_radius self) (wheel_omg self)) (fcos theta') in
    let vy' :=
      fmul (fmul (wheel_radius self) (wheel_omg self)) (fsin theta') in
    set_vy vy' (set_vx vx' (set_theta theta' (set_y y' (set_x x'
      (set_wheel_pos wheel_pos' self))))).
Proof. reflexivity. Qed.

(** The velocity attributes follow the heading attribute in every state
    the node goes through. *)
Lemma init_velocity (now : Time) :
  velocity_of_heading (fst (__init__ now)).
Proof. split; reflexivity. Qed.

Lemma dispatch_velocity (e : Event F) (self : Node F) :
  velocity_of_heading self -> velocity_of_heading (fst (dispatch e self)).
Proof.
  intros [Hx Hy]. destruct e; cbn [dispatch]; try (split; assumption).
  split; reflexivity.
Qed.

Lemma spin_velocity (evs : list (Event F)) (self : Node F) :
  velocity_of_heading self -> velocity_of_heading (fst (spin evs self)).
Proof.
  revert self. induction evs as [|e evs IH]; intros self H.
  - exact H.
  - rewrite spin_cons. cbn [fst]. apply IH, dispatch_velocity, H.
Qed.

Lemma node_after_velocity (now : Time) (evs : list (Event F)) :
  velocity_of_heading (node_after now evs).
Proof.
  unfold node_after. rewrite main_eq. cbn [fst].
  apply spin_velocity, init_velocity.
Qed.

(** The constants of a node that [__init__] built. *)
Lemma node_after_targets (now : Time) (evs : list (Event F)) :
  targetX (node_after now evs) = fsub (flit 9) (flit 5.55)
  /\ targetY (node_after now evs) = fsub (flit 7) (flit 5.55).
Proof.
  pose proof (node_after_constants now evs) as H.
  unfold constants in H. injection H as _ _ _ _ _ _ HX HY _ _ _ _.
  split; [rewrite HX | rewrite HY]; reflexivity.
Qed.

(** The tick does not read the stored messages. *)
Lemma tick_after_goal (time : Time) (data : PoseStamped F) (self : Node F) :
  fst (timer_callback time (fst (update_goalpose data self))) =
    fst (update_goalpose data (fst (timer_callback time self))).
Proof. destruct self. reflexivity. Qed.

Lemma tick_after_goal_out (time : Time) (data : PoseStamped F)
    (self : Node F) :
  snd (timer_callback time (fst (update_goalpose data self))) =
    snd (timer_callback time self).
Proof. destruct self. reflexivity. Qed.

Lemma tick_after_pose (time : Time) (data : TPose F) (self : Node F) :
  fst (timer_callback time (fst (update_turtlepose data self))) =
    fst (update_turtlepose data (fst (timer_callback time self))).
Proof. destruct self. reflexivity. Qed.

Lemma tick_after_pose_out (time : Time) (data : TPose F) (self : Node F) :
  snd (timer_callback time (fst (update_turtlepose data self))) =
    snd (timer_callback time self).
Proof. destruct self. reflexivity. Qed.

Lemma update_goalpose_motion (data : PoseStamped F) (self : Node F) :
  let s' := fst (update_goalpose data self) in
  x s' = x self /\ y s' = y self /\ theta s' = theta self
  /\ targetX s' = targetX self /\ targetY s' = targetY self.
Proof. repeat split; reflexivity. Qed.

(** What the callbacks publish on [/odom] and [cmd_vel]. *)
Lemma odoms_app (o1 o2 : list (Output F)) :
  odoms (o1 ++ o2) = odoms o1 ++ odoms o2.
Proof. unfold odoms. apply flat_map_app. Qed.

Lemma cmd_vels_app (o1 o2 : list (Output F)) :
  cmd_vels (o1 ++ o2) = cmd_vels o1 ++ cmd_vels o2.
Proof. unfold cmd_vels. apply flat_map_app. Qed.

Lemma timer_callback_angular (time : Time) (self : Node F) :
  map (fun m => angular (tc_twist (od_twist m)))
      (odoms (snd (timer_callback time self))) =
    [mkVector3 (flit 0) (flit 0) (swivel_omg self)]
  /\ map (@angular F) (cmd_vels (snd (timer_callback time self))) =
    [mkVector3 (flit 0) (flit 0) (swivel_omg self)].
Proof. destruct self. split; reflexivity. Qed.

Lemma dispatch_angular (e : Event F) (self : Node F) :
  Forall (fun m => angular (tc_twist (od_twist m)) =
                     mkVector3 (flit 0) (flit 0) (swivel_omg self))
         (odoms (snd (dispatch e self)))
  /\ Forall (fun m => angular m =
                        mkVector3 (flit 0) (flit 0) (swivel_omg self))
            (cmd_vels (snd (dispatch e self)))
  /\ List.length (odoms (snd (dispatch e self))) = ticks [e]
  /\ List.length (cmd_vels (snd (dispatch e self))) = ticks [e].
Proof.
  destruct self.
  destruct e; run_callbacks;
    cbv [odoms cmd_vels ticks flat_map filter app List.length];
    repeat split; repeat constructor.
Qed.

Lemma ticks_cons (e : Event F) (evs : list (Event F)) :
  ticks (e :: evs) = (ticks [e] + ticks evs)%nat.
Proof. destruct e; reflexivity. Qed.

Lemma ticks_app (evs1 evs2 : list (Event F)) :
  ticks (evs1 ++ evs2) = (ticks evs1 + ticks evs2)%nat.
Proof.
  unfold ticks. rewrite filter_app, length_app. reflexivity.
Qed.

Lemma dispatch_swivel_omg (e : Event F) (self : Node F) :
  swivel_omg (fst (dispatch e self)) = swivel_omg self.
Proof. destruct e; reflexivity. Qed.

Lemma spin_angular (evs : list (Event F)) (self : Node F) :
  Forall (fun m => angular (tc_twist (od_twist m)) =
                     mkVector3 (flit 0) (flit 0) (swivel_omg self))
         (odoms (snd (spin evs self)))
  /\ Forall (fun m => angular m =
                        mkVector3 (flit 0) (flit 0) (swivel_omg self))
            (cmd_vels (snd (spin evs self)))
  /\ List.length (odoms (snd (spin evs self))) = ticks evs
  /\ List.length (cmd_vels (snd (spin evs self))) = ticks evs.
Proof.
  revert self. induction evs as [|e evs IH]; intros self.
  - cbn. repeat split; constructor.
  - rewrite spin_cons, ticks_cons. cbn [snd].
    rewrite odoms_app, cmd_vels_app, !length_app.
    destruct (dispatch_angular e self) as (D1 & D2 & D3 & D4).
    destruct (IH (fst (dispatch e self))) as (I1 & I2 & I3 & I4).
    rewrite dispatch_swivel_omg in I1, I2.
    rewrite D3, D4, I3, I4.
    repeat split; try reflexivity; apply Forall_app; split; assumption.
Qed.

End Structure.

(** ** Properties of the callbacks, for every float implementation *)

Section Callbacks.
Context {F : Type} {ops : PyFloat F}.

(** C3.  In a tick the position is integrated first, with the velocity the
    node holds on entry, which is the one of the heading it holds on entry
    (computed by the previous tick, or by the constructor); only then the
    heading is recomputed from the new position, and the velocity from the
    new heading.  The tick that follows integrates with that velocity. *)
Theorem position_update_precedes_heading_refresh :
  forall (now : Time) (evs : list (Event F)) (t1 t2 : Time),
    let self := node_after now evs in
    let s1 := fst (timer_callback t1 self) in
    let s2 := fst (timer_callback t2 s1) in
    let speed := fmul (wheel_radius self) (wheel_omg self) in
    x s1 = fadd (x self) (fmul (vx self) (dt self))
    /\ y s1 = fadd (y self) (fmul (vy self) (dt self))
    /\ vx self = fmul speed (fcos (theta self))
    /\ vy self = fmul speed (fsin (theta self))
    /\ theta s1 =
         fatan2 (fsub (targetY self) (y s1)) (fsub (targetX self) (x s1))
    /\ vx s1 = fmul speed (fcos (theta s1))
    /\ vy s1 = fmul speed (fsin (theta s1))
    /\ x s2 = fadd (x s1) (fmul (fmul speed (fcos (theta s1))) (dt self))
    /\ y s2 = fadd (y s1) (fmul (fmul speed (fsin (theta s1))) (dt self)).
Proof.
  intros now evs t1 t2 self s1 s2 speed.
  destruct (node_after_velocity now evs) as [Hx Hy].
  fold self in Hx, Hy. clearbody self. subst s1 s2 speed.
  destruct self. run_callbacks. run_callbacks_in Hx. run_callbacks_in Hy.
  repeat split; try assumption; reflexivity.
Qed.

(** C6.  The constructor sends one transform on the static broadcaster,
    from [world] to [odom], with translation (5.55, 5.55, 0) and the
    identity rotation; no callback sends on the static broadcaster, so a
    whole run sends that single one; and the attributes [world_odom_x],
    [world_odom_y] and [world_odom_z] keep their values through every
    callback. *)
Theorem static_transform_sent_once :
  forall (now : Time) (evs : list (Event F)),
    let world_odom_tf :=
      mkTransformStamped (mkHeader now "world") "odom"
        (mkTransform (mkVector3 (flit 5.55) (flit 5.55) (flit 0))
                     (mkQuaternion (flit 0) (flit 0) (flit 0) (flit 1))) in
    static_tfs (snd (__init__ now)) = [world_odom_tf]
    /\ static_tfs (snd (spin evs (fst (__init__ now)))) = []
    /\ static_tfs (snd (main now evs)) = [world_odom_tf]
    /\ world_odom_x (node_after now evs) = flit 5.55
    /\ world_odom_y (node_after now evs) = flit 5.55
    /\ world_odom_z (node_after now evs) = flit 0.
Proof.
  intros now evs world_odom_tf.
  pose proof (node_after_constants now evs) as H.
  unfold constants in H. injection H as Hx Hy Hz _ _ _ _ _ _ _ _ _.
  split; [reflexivity|].
  split; [apply spin_static_tfs|].
  split.
  - rewrite main_eq. cbn [snd]. rewrite static_tfs_app, spin_static_tfs.
    reflexivity.
  - rewrite Hx, Hy, Hz. repeat split; reflexivity.
Qed.

(** C2, as the code has it.  A goal message replaces the attribute
    [goalpose] at once and sends nothing.  The heading is computed from
    [targetX] and [targetY], which in every state of a run are the
    constants [9 - 5.55] and [7 - 5.55] fixed by the constructor, whatever
    goal messages were received. *)
Theorem goal_stored_heading_uses_startup_target :
  forall (now : Time) (evs : list (Event F)) (data : PoseStamped F)
         (evs' : list (Event F)) (time : Time),
    let s1 := fst (update_goalpose data (node_after now evs)) in
    let s2 := node_after now (evs ++ GoalMsg data :: evs') in
    let s3 := fst (timer_callback time s2) in
    goalpose s1 = data
    /\ snd (update_goalpose data (node_after now evs)) = []
    /\ targetX s2 = fsub (flit 9) (flit 5.55)
    /\ targetY s2 = fsub (flit 7) (flit 5.55)
    /\ theta s3 =
         fatan2 (fsub (fsub (flit 7) (flit 5.55)) (y s3))
                (fsub (fsub (flit 9) (flit 5.55)) (x s3)).
Proof.
  intros now evs data evs' time s1 s2 s3.
  destruct (node_after_targets now (evs ++ GoalMsg data :: evs'))
    as [HX HY].
  fold s2 in HX, HY.
  split; [reflexivity|]. split; [reflexivity|].
  split; [exact HX|]. split; [exact HY|].
  rewrite <- HX, <- HY. reflexivity.
Qed.

(** C8, as the code has it.  A goal or pose message is stored as it is,
    whatever numbers it carries, and nothing is logged.  The tick does not
    read the stored messages: what it sends and what it assigns are the
    same with or without the update. *)
Theorem updates_stored_unchecked :
  forall (data : PoseStamped F) (pdata : TPose F) (time : Time)
         (self : Node F),
    goalpose (fst (update_goalpose data self)) = data
    /\ snd (update_goalpose data self) = []
    /\ turtlepose (fst (update_turtlepose pdata self)) = Some pdata
    /\ snd (update_turtlepose pdata self) = []
    /\ snd (timer_callback time (fst (update_goalpose data self))) =
         snd (timer_callback time self)
    /\ snd (timer_callback time (fst (update_turtlepose pdata self))) =
         snd (timer_callback time self)
    /\ fst (timer_callback time (fst (update_goalpose data self))) =
         fst (update_goalpose data (fst (timer_callback time self)))
    /\ fst (timer_callback time (fst (update_turtlepose pdata self))) =
         fst (update_turtlepose pdata (fst (timer_callback time self))).
Proof.
  intros data pdata time self.
  split; [reflexivity|]. split; [reflexivity|].
  split; [reflexivity|]. split; [reflexivity|].
  split; [apply tick_after_goal_out|].
  split; [apply tick_after_pose_out|].
  split; [apply tick_after_goal | apply tick_after_pose].
Qed.

End Callbacks.

(** ** The run in exact real arithmetic *)

(** The numbers the literals of the constructor denote. *)
Lemma Q2R_literals :
  Q2R 0 = 0 /\ Q2R 1 = 1 /\ Q2R 2 = 2 /\ Q2R 7 = 7 /\ Q2R 9 = 9
  /\ Q2R 100 = 100 /\ Q2R 5.55 = 5.55 /\ Q2R 0.2 = 0.2
  /\ Q2R 1.618 = 1.618 /\ Q2R 0.8 = 0.8.
Proof. unfold Q2R; cbn [Qnum Qden]. repeat split; lra. Qed.

Ltac literals :=
  destruct Q2R_literals
    as (L0 & L1 & L2 & L7 & L9 & L100 & L555 & L02 & L1618 & L08);
  cbn [flit fadd fsub fmul fdiv fcos fsin fatan2 R_PyFloat];
  rewrite ?L0, ?L1, ?L2, ?L7, ?L9, ?L100, ?L555, ?L02, ?L1618, ?L08;
  clear L0 L1 L2 L7 L9 L100 L555 L02 L1618 L08.

(** The node that the constructor builds. *)
Lemma init_values (now : Time) :
  let self : Node R := fst (__init__ now) in
  wheel_pos self = 0 /\ x self = 0 /\ y self = 0 /\ theta self = 0
  /\ wheel_radius self = 0.3236 /\ wheel_omg self = 0.8
  /\ dt self = 0.01
  /\ targetX self = 3.45 /\ targetY self = 1.45
  /\ vx self = 0.25888 /\ vy self = 0.
Proof.
  cbn [fst __init__ wheel_pos x y theta wheel_radius wheel_omg dt targetX
       targetY vx vy].
  literals. rewrite cos_0, sin_0. repeat split; lra.
Qed.

(** The constants of the node in every state of a run. *)
Lemma run_values (now : Time) (evs : list (Event R)) :
  let self := node_after now evs in
  wheel_radius self = 0.3236 /\ wheel_omg self = 0.8 /\ dt self = 0.01
  /\ targetX self = 3.45 /\ targetY self = 1.45 /\ swivel_omg self = 0.
Proof.
  intros self.
  pose proof (node_after_constants now evs) as H. fold self in H.
  unfold constants in H. injection H as _ _ _ Hr _ _ HX HY Hw Hs _ Hd.
  destruct (init_values now) as (_ & _ & _ & _ & Ir & Iw & Id & IX & IY & _).
  cbv zeta in Ir, Iw, Id, IX, IY.
  rewrite Hr, Hw, Hd, HX, HY, Hs.
  repeat split; try assumption.
  cbn [fst __init__ swivel_omg]. literals. reflexivity.
Qed.

(** *** [atan2] *)

Lemma atan2_pos (b a : R) : 0 < a -> atan2 b a = atan (b / a).
Proof. intros H. unfold atan2. destruct (Rlt_dec 0 a); [reflexivity | lra]. Qed.

Lemma atan2_neg_nonneg (b a : R) :
  a < 0 -> 0 <= b -> atan2 b a = atan (b / a) + PI.
Proof.
  intros Ha Hb. unfold atan2.
  destruct (Rlt_dec 0 a); [lra|].
  destruct (Rlt_dec a 0); [|lra].
  destruct (Rle_dec 0 b); [reflexivity | lra].
Qed.

Lemma atan2_origin : atan2 0 0 = 0.
Proof.
  unfold atan2.
  destruct (Rlt_dec 0 0); [lra|]. reflexivity.
Qed.

(** *** Bounds on [atan] from the polynomial bounds of [sin] and [cos] *)

Lemma INR_fact_zfact (n : nat) : INR (fact n) = IZR (zfact n).
Proof.
  induction n as [|k IH].
  - reflexivity.
  - change (fact (S k)) with (S k * fact k)%nat.
    rewrite mult_INR, IH, INR_IZR_INZ, <- mult_IZR. reflexivity.
Qed.

Ltac poly_form :=
  cbn [sum_f_R0 Nat.mul Nat.add];
  rewrite !INR_fact_zfact;
  repeat match goal with
         | |- context [IZR (zfact ?n)] =>
             let v := eval vm_compute in (zfact n) in
             change (zfact n) with v
         end;
  field.

Lemma sin_lb_poly (a : R) :
  sin_lb a = a - a ^ 3 / 6 + a ^ 5 / 120 - a ^ 7 / 5040.
Proof. unfold sin_lb, sin_approx, sin_term. poly_form. Qed.

Lemma sin_ub_poly (a : R) :
  sin_ub a = a - a ^ 3 / 6 + a ^ 5 / 120 - a ^ 7 / 5040 + a ^ 9 / 362880.
Proof. unfold sin_ub, sin_approx, sin_term. poly_form. Qed.

Lemma cos_lb_poly (a : R) :
  cos_lb a = 1 - a ^ 2 / 2 + a ^ 4 / 24 - a ^ 6 / 720.
Proof. unfold cos_lb, cos_approx, cos_term. poly_form. Qed.

Lemma cos_ub_poly (a : R) :
  cos_ub a = 1 - a ^ 2 / 2 + a ^ 4 / 24 - a ^ 6 / 720 + a ^ 8 / 40320.
Proof. unfold cos_ub, cos_approx, cos_term. poly_form. Qed.

(** [atan t < u] follows from [t < tan u], and [tan u] is bounded from below
    by [sin_lb u / cos_ub u]. *)
Lemma atan_below (t u : R) :
  0 < u -> u < 1 -> t * cos_ub u < sin_lb u -> atan t < u.
Proof.
  intros H0 H1 Hp.
  assert (Hpi := PI2_1).
  assert (Hc : 0 < cos u) by (apply cos_gt_0; lra).
  destruct (SIN u) as [Hs _]; [lra | lra |].
  destruct (COS u) as [_ Hcu]; [lra | lra |].
  assert (Ht : t < tan u).
  { unfold tan. apply Rmult_lt_reg_r with (cos u); [exact Hc|].
    unfold Rdiv. rewrite Rmult_assoc, Rinv_l by lra. rewrite Rmult_1_r.
    destruct (Rle_dec t 0) as [Hn|Hp'].
    - assert (0 < sin u) by (apply sin_gt_0; lra). nra.
    - nra. }
  rewrite <- (atan_tan u) by lra.
  apply atan_increasing. exact Ht.
Qed.

(** [u < atan t] follows from [tan u < t], and [tan u] is bounded from above
    by [sin_ub u / cos_lb u]. *)
Lemma atan_above (t u : R) :
  0 < t -> 0 < u -> u < 1 -> sin_ub u < t * cos_lb u -> u < atan t.
Proof.
  intros Htp H0 H1 Hp.
  assert (Hpi := PI2_1).
  assert (Hc : 0 < cos u) by (apply cos_gt_0; lra).
  destruct (SIN u) as [_ Hs]; [lra | lra |].
  destruct (COS u) as [Hcl _]; [lra | lra |].
  assert (Ht : tan u < t).
  { unfold tan. apply Rmult_lt_reg_r with (cos u); [exact Hc|].
    unfold Rdiv. rewrite Rmult_assoc, Rinv_l by lra. rewrite Rmult_1_r.
    nra. }
  rewrite <- (atan_tan u) at 1 by lra.
  apply atan_increasing. exact Ht.
Qed.

(** The bearing of the goal from the start, [atan2(1.45, 3.45)]. *)
Lemma bearing_at_start :
  0.3978 < atan2 (7 - 5.55 - 0) (9 - 5.55 - 0) < 0.3979.
Proof.
  rewrite atan2_pos by lra. split.
  - apply atan_above; try lra.
    rewrite sin_ub_poly, cos_lb_poly.
    replace ((7 - 5.55 - 0) / (9 - 5.55 - 0)) with (145 / 345) by lra. lra.
  - apply atan_below; try lra.
    rewrite sin_lb_poly, cos_ub_poly.
    replace ((7 - 5.55 - 0) / (9 - 5.55 - 0)) with (145 / 345) by lra. lra.
Qed.

(** The heading after the first tick, [atan2(1.45, 3.45 - 0.0025888)]. *)
Lemma bearing_after_first_step :
  0.3981 < atan2 (1.45 - 0) (3.45 - 0.0025888) < 0.3982.
Proof.
  rewrite atan2_pos by lra.
  replace ((1.45 - 0) / (3.45 - 0.0025888)) with (14500000 / 34474112)
    by lra.
  split.
  - apply atan_above; try lra.
    rewrite sin_ub_poly, cos_lb_poly. lra.
  - apply atan_below; try lra.
    rewrite sin_lb_poly, cos_ub_poly. lra.
Qed.

(** *** The first tick *)

Lemma first_tick_values (now time : Time) :
  let s1 : Node R := fst (timer_callback time (fst (__init__ now))) in
  x s1 = 0.0025888 /\ y s1 = 0
  /\ theta s1 = atan2 (1.45 - 0) (3.45 - 0.0025888).
Proof.
  cbv [__init__]. run_callbacks. literals. rewrite cos_0, sin_0.
  split; [lra|]. split; [lra|]. f_equal; lra.
Qed.

Lemma first_tick_heading (now time : Time) :
  0.3981 < theta (fst (timer_callback time (fst (@__init__ R _ now))))
    < 0.3982.
Proof.
  destruct (first_tick_values now time) as (_ & _ & Ht).
  cbv zeta in Ht. rewrite Ht. apply bearing_after_first_step.
Qed.

(** *** The wheel accumulator *)





Lemma node_after_app (now : Time) (evs evs' : list (Event R)) :
  node_after now (evs ++ evs') = fst (spin evs' (node_after now evs)).
Proof.
  unfold node_after. rewrite !main_eq. cbn [fst]. rewrite spin_app.
  reflexivity.
Qed.

(** ** Properties of the run in exact real arithmetic *)

(** C1.  A tick integrates the position and then assigns to [theta] the
    value [atan2(targetY - y, targetX - x)] at the new position, whatever
    the heading was before; the joint-state message of the tick carries that
    value as the position of [swivel].  The callback is a total function:
    when the goal is exactly the new position the value is [atan2(0, 0)],
    which is 0. *)
Theorem heading_recomputed_each_tick :
  forall (time : Time) (self : Node R),
    let s' := fst (timer_callback time self) in
    x s' = x self + vx self * dt self
    /\ y s' = y self + vy self * dt self
    /\ targetX s' = targetX self /\ targetY s' = targetY self
    /\ theta s' = atan2 (targetY s' - y s') (targetX s' - x s')
    /\ map (@js_name R) (joint_states (snd (timer_callback time self))) =
         [["wheel_axle"; "swivel"; "tip"]%string]
    /\ map (@js_position R) (joint_states (snd (timer_callback time self))) =
         [[wheel_pos s'; theta s'; tip_pos s']]
    /\ (targetX s' = x s' -> targetY s' = y s' -> theta s' = 0).
Proof.
  intros time self s'. subst s'. destruct self. run_callbacks.
  cbn [fadd fsub fmul fatan2 fcos fsin R_PyFloat].
  repeat (split; [reflexivity|]).
  intros HX HY. rewrite <- HX, <- HY.
  unfold Rminus. rewrite !Rplus_opp_r. apply atan2_origin.
Qed.

(** C1 at a node at rest on its goal: the tick gives the heading 0. *)
Lemma heading_on_goal :
  targetX (fst (timer_callback epoch node_on_goal)) =
    x (fst (timer_callback epoch node_on_goal))
  /\ targetY (fst (timer_callback epoch node_on_goal)) =
       y (fst (timer_callback epoch node_on_goal))
  /\ theta (fst (timer_callback epoch node_on_goal)) = 0.
Proof.
  assert (HX : targetX (fst (timer_callback epoch node_on_goal)) =
               x (fst (timer_callback epoch node_on_goal))).
  { cbv [node_on_goal]. run_callbacks.
    cbn [fadd fmul R_PyFloat]. lra. }
  assert (HY : targetY (fst (timer_callback epoch node_on_goal)) =
               y (fst (timer_callback epoch node_on_goal))).
  { cbv [node_on_goal]. run_callbacks.
    cbn [fadd fmul R_PyFloat]. lra. }
  split; [exact HX|]. split; [exact HY|].
  exact (proj2 (proj2 (proj2 (proj2 (proj2 (proj2 (proj2
    (heading_recomputed_each_tick epoch node_on_goal))))))) HX HY).
Defined.



(** C5.  The transform that a tick sends on the dynamic broadcaster goes
    from [odom] to [base_link], has translation [(x, y, 0)] at the new
    position, and the rotation [angle_axis_to_quaternion(0, [0, 0, 1])].
    With [q = (cos(a/2), sin(a/2) * v)], angle 0 gives the identity
    quaternion [(w, x, y, z) = (1, 0, 0, 0)] for every axis. *)
Theorem dynamic_transform_identity_rotation :
  forall (time : Time) (self : Node R),
    let s' := fst (timer_callback time self) in
    tfs (snd (timer_callback time self)) =
      [mkTransformStamped (mkHeader time "odom") "base_link"
         (mkTransform (mkVector3 (x s') (y s') 0) (mkQuaternion 0 0 0 1))]
    /\ (forall (a v0 v1 v2 : R),
          angle_axis_to_quaternion a (v0, v1, v2) =
            mkQuaternion (sin (a / 2) * v0) (sin (a / 2) * v1)
                         (sin (a / 2) * v2) (cos (a / 2)))
    /\ (forall v : R * R * R,
          angle_axis_to_quaternion 0 v = mkQuaternion 0 0 0 1).
Proof.
  intros time self s'.
  assert (Hid : forall v : R * R * R,
             angle_axis_to_quaternion 0 v = mkQuaternion 0 0 0 1).
  { intros [[v0 v1] v2]. unfold angle_axis_to_quaternion. literals.
    replace (0 / 2) with 0 by lra. rewrite sin_0, cos_0.
    rewrite !Rmult_0_l. reflexivity. }
  split; [|split].
  - subst s'. destruct self. run_callbacks. cbv [tfs flat_map app].
    cbv [TransformStamped_new Vector3_new transform translation v3_z].
    literals. rewrite Hid. reflexivity.
  - intros a v0 v1 v2. unfold angle_axis_to_quaternion. literals.
    reflexivity.
  - exact Hid.
Qed.



(** C9, as the code has it.  With the constants of the constructor (offset
    (5.55, 5.55, 0), target (9, 7), radius 0.3236, wheel rate 0.8, step 0.01)
    the first tick moves the position by [(vx * dt, vy * dt)] with the
    velocity of the initial heading 0, that is to (0.0025888, 0), and sets
    the heading to [atan2(7 - 5.55 - 0, 9 - 5.55 - 0.0025888)], which lies
    between 0.3981 and 0.3982 and within 0.0004 of
    [atan2(7 - 5.55 - 0, 9 - 5.55 - 0)]. *)
Theorem first_tick_scenario :
  forall (now time : Time),
    let s0 : Node R := fst (__init__ now) in
    let s1 := fst (timer_callback time s0) in
    (world_odom_x s0, world_odom_y s0, world_odom_z s0) = (5.55, 5.55, 0)
    /\ (world_targetX s0, world_targetY s0) = (9, 7)
    /\ wheel_radius s0 = 0.3236 /\ wheel_omg s0 = 0.8 /\ dt s0 = 0.01
    /\ theta s0 = 0
    /\ vx s0 = wheel_radius s0 * wheel_omg s0 * cos (theta s0)
    /\ vy s0 = wheel_radius s0 * wheel_omg s0 * sin (theta s0)
    /\ x s1 = x s0 + vx s0 * dt s0
    /\ y s1 = y s0 + vy s0 * dt s0
    /\ x s1 = 0.0025888 /\ y s1 = 0
    /\ theta s1 = atan2 (7 - 5.55 - y s1) (9 - 5.55 - x s1)
    /\ 0.3981 < theta s1 < 0.3982
    /\ Rabs (theta s1 - atan2 (7 - 5.55 - 0) (9 - 5.55 - 0)) < 0.0004.
Proof.
  intros now time s0 s1.
  destruct (init_values now)
    as (_ & Ix & Iy & It & Ir & Iw & Id & _ & _ & Ivx & Ivy).
  fold s0 in Ix, Iy, It, Ir, Iw, Id, Ivx, Ivy.
  destruct (first_tick_values now time) as (Hx & Hy & Ht).
  fold s0 in Hx, Hy, Ht. fold s1 in Hx, Hy, Ht.
  pose proof (first_tick_heading now time) as Hb. fold s0 s1 in Hb.
  pose proof bearing_at_start as Hs.
  split. { subst s0. cbv [__init__ fst world_odom_x world_odom_y world_odom_z].
           literals. reflexivity. }
  split. { subst s0. cbv [__init__ fst world_targetX world_targetY].
           literals. reflexivity. }
  split; [exact Ir|]. split; [exact Iw|]. split; [exact Id|].
  split; [exact It|].
  split; [rewrite Ivx, Ir, Iw, It, cos_0; lra|].
  split; [rewrite Ivy, Ir, Iw, It, sin_0; lra|].
  split; [rewrite Hx, Ix, Ivx, Id; lra|].
  split; [rewrite Hy, Iy, Ivy, Id; lra|].
  split; [exact Hx|]. split; [exact Hy|].
  split; [rewrite Ht, Hx, Hy; f_equal; lra|].
  split; [exact Hb|].
  apply Rabs_def1; lra.
Qed.

(** C10.  The attribute [swivel_omg] is 0.0 in every state of a run.  Each
    tick publishes one odometry message and one velocity command, both with
    angular part (0, 0, 0), so every such message of a run has angular z
    equal to 0.  The heading does change: it is 0 after construction and not
    after the first tick. *)
Theorem angular_rate_is_zero :
  (forall (F : Type) (ops : PyFloat F) (now : Time) (evs : list (Event F))
          (time : Time),
     let self := node_after now evs in
     swivel_omg self = flit 0
     /\ map (fun m => angular (tc_twist (od_twist m)))
            (odoms (snd (timer_callback time self))) =
          [mkVector3 (flit 0) (flit 0) (flit 0)]
     /\ map (@angular F) (cmd_vels (snd (timer_callback time self))) =
          [mkVector3 (flit 0) (flit 0) (flit 0)]
     /\ Forall (fun m => v3_z (angular (tc_twist (od_twist m))) = flit 0)
               (odoms (snd (main now evs)))
     /\ Forall (fun m => v3_z (angular m) = flit 0)
               (cmd_vels (snd (main now evs)))
     /\ List.length (odoms (snd (main now evs))) = ticks evs
     /\ List.length (cmd_vels (snd (main now evs))) = ticks evs)
  /\ (forall now time : Time,
        theta (fst (@__init__ R _ now)) = 0
        /\ theta (fst (timer_callback time (fst (@__init__ R _ now)))) <> 0).
Proof.
  split.
  - intros F ops now evs time self.
    assert (Hs : swivel_omg self = flit 0).
    { pose proof (node_after_constants now evs) as H. fold self in H.
      unfold constants in H. injection H as _ _ _ _ _ _ _ _ _ Hs _ _.
      rewrite Hs. reflexivity. }
    destruct (timer_callback_angular time self) as [Ho Hc].
    rewrite Hs in Ho, Hc.
    destruct (spin_angular evs (fst (__init__ now))) as (A1 & A2 & A3 & A4).
    split; [exact Hs|]. split; [exact Ho|]. split; [exact Hc|].
    rewrite main_eq. cbn [snd]. rewrite odoms_app, cmd_vels_app.
    change (odoms (snd (__init__ now))) with (@nil (Odometry F)).
    change (cmd_vels (snd (__init__ now))) with (@nil (Twist F)).
    cbn [app].
    split; [|split; [|split; assumption]].
    + eapply Forall_impl; [|exact A1]. intros m Hm. cbv beta in Hm.
      rewrite Hm. reflexivity.
    + eapply Forall_impl; [|exact A2]. intros m Hm. cbv beta in Hm.
      rewrite Hm. reflexivity.
  - intros now time. split.
    + apply (init_values now).
    + pose proof (first_tick_heading now time). lra.
Qed.

(** ** Where the code departs from the stated behaviour *)

(** Against C2 as stated.  A goal message for (0, 5) is stored, and the tick
    that follows still
    steers at the startup target: [targetX] and [targetY] are not the
    message's coordinates, and the heading is not the bearing of (0, 5). *)
Lemma goal_update_not_consulted :
  let s1 := fst (update_goalpose goal_0_5 (fst (@__init__ R _ epoch))) in
  let s2 := fst (timer_callback epoch s1) in
  let gx := pt_x (position (ps_pose goal_0_5)) in
  let gy := pt_y (position (ps_pose goal_0_5)) in
  goalpose s1 = goal_0_5
  /\ targetX s2 <> gx /\ targetY s2 <> gy
  /\ theta s2 = atan2 (targetY s2 - y s2) (targetX s2 - x s2)
  /\ theta s2 <> atan2 (gy - y s2) (gx - x s2).
Proof.
  cbv zeta. rewrite tick_after_goal.
  set (s0 := fst (@__init__ R _ epoch)).
  set (s1 := fst (timer_callback epoch s0)).
  destruct (update_goalpose_motion goal_0_5 s1) as (Ex & Ey & Et & EX & EY).
  cbv zeta in Ex, Ey, Et, EX, EY. rewrite Ex, Ey, Et, EX, EY.
  assert (EX1 : targetX s1 = targetX s0) by (destruct s0; reflexivity).
  assert (EY1 : targetY s1 = targetY s0) by (destruct s0; reflexivity).
  rewrite EX1, EY1.
  destruct (first_tick_values epoch epoch) as (Hx & Hy & Ht).
  pose proof (first_tick_heading epoch epoch) as Hb.
  destruct (init_values epoch) as (_ & _ & _ & _ & _ & _ & _ & IX & IY & _).
  fold s0 in Hx, Hy, Ht, Hb, IX, IY. fold s1 in Hx, Hy, Ht, Hb.
  rewrite IX, IY, Hx, Hy.
  replace (pt_x (position (ps_pose goal_0_5))) with 0 by reflexivity.
  replace (pt_y (position (ps_pose goal_0_5))) with 5 by reflexivity.
  split; [reflexivity|]. split; [lra|]. split; [lra|].
  split; [exact Ht|].
  rewrite atan2_neg_nonneg by lra.
  pose proof (atan_bound ((5 - 0) / (0 - 0.0025888))) as [Hlo _].
  pose proof PI2_1. lra.
Qed.

(** Against C8 as stated.  Goal messages with an infinite or a NaN
    coordinate, and a pose message with an infinite coordinate, replace what
    the node stored, and nothing is logged. *)
Lemma nonfinite_update_stored :
  is_infinity (pt_x (position (ps_pose goal_inf))) = true
  /\ is_nan (pt_y (position (ps_pose goal_nan))) = true
  /\ is_infinity (tp_x pose_inf) = true
  /\ goalpose (fst (update_goalpose goal_inf node64)) = goal_inf
  /\ goalpose (fst (update_goalpose goal_inf node64)) <> goalpose node64
  /\ snd (update_goalpose goal_inf node64) = []
  /\ goalpose (fst (update_goalpose goal_nan node64)) = goal_nan
  /\ goalpose (fst (update_goalpose goal_nan node64)) <> goalpose node64
  /\ snd (update_goalpose goal_nan node64) = []
  /\ turtlepose (fst (update_turtlepose pose_inf node64)) = Some pose_inf
  /\ turtlepose (fst (update_turtlepose pose_inf node64)) <> turtlepose node64
  /\ snd (update_turtlepose pose_inf node64) = [].
Proof.
  repeat (split; [reflexivity|]).
  split.
  { intros H.
    apply (f_equal (fun m => is_infinity (pt_x (position (ps_pose m))))) in H.
    vm_compute in H. discriminate H. }
  repeat (split; [reflexivity|]).
  split.
  { intros H.
    apply (f_equal (fun m => is_nan (pt_y (position (ps_pose m))))) in H.
    vm_compute in H. discriminate H. }
  repeat (split; [reflexivity|]).
  split; [discriminate | reflexivity].
Qed.

(** Against C9 as stated.  The heading after the first tick is more than
    0.28 away from 0.6847. *)
Lemma first_tick_heading_not_0_6847 :
  Rabs (theta (fst (timer_callback epoch (fst (@__init__ R _ epoch))))
        - 0.6847) > 0.28.
Proof.
  pose proof (first_tick_heading epoch epoch) as Hb.
  rewrite Rabs_left by lra. lra.
Qed.

(** *** Binary64 *)




(** ** Further properties of runs, for every float implementation *)

Section Runs.
Context {F : Type} {ops : PyFloat F}.

Lemma logs_app (o1 o2 : list (Output F)) :
  logs (o1 ++ o2) = logs o1 ++ logs o2.
Proof. unfold logs. apply flat_map_app. Qed.

Lemma joint_states_app (o1 o2 : list (Output F)) :
  joint_states (o1 ++ o2) = joint_states o1 ++ joint_states o2.
Proof. unfold joint_states. apply flat_map_app. Qed.

Lemma tfs_app (o1 o2 : list (Output F)) :
  tfs (o1 ++ o2) = tfs o1 ++ tfs o2.
Proof. unfold tfs. apply flat_map_app. Qed.

Lemma dispatch_outputs (e : Event F) (self : Node F) :
  List.length (snd (dispatch e self)) = (4 * ticks [e])%nat
  /\ logs (snd (dispatch e self)) = []
  /\ List.length (joint_states (snd (dispatch e self))) = ticks [e]
  /\ List.length (tfs (snd (dispatch e self))) = ticks [e].
Proof.
  destruct self. destruct e; run_callbacks; repeat split; reflexivity.
Qed.

Lemma spin_outputs (evs : list (Event F)) (self : Node F) :
  List.length (snd (spin evs self)) = (4 * ticks evs)%nat
  /\ logs (snd (spin evs self)) = []
  /\ List.length (joint_states (snd (spin evs self))) = ticks evs
  /\ List.length (tfs (snd (spin evs self))) = ticks evs.
Proof.
  revert self. induction evs as [|e evs IH]; intros self.
  - repeat split; reflexivity.
  - rewrite spin_cons, ticks_cons. cbn [snd].
    rewrite logs_app, joint_states_app, tfs_app, !length_app.
    destruct (dispatch_outputs e self) as (D1 & D2 & D3 & D4).
    destruct (IH (fst (dispatch e self))) as (I1 & I2 & I3 & I4).
    rewrite D1, D2, D3, D4, I1, I2, I3, I4.
    repeat split; try reflexivity. lia.
Qed.

(** X2.  A whole run sends the static transform and one log line of level
    INFO from the constructor, then four messages for each tick and nothing
    for a received message: nothing else is ever logged, and the run has one
    joint-state message and one dynamic transform per tick. *)
Theorem run_sends_four_messages_per_tick :
  forall (now : Time) (evs : list (Event F)),
    List.length (snd (main now evs)) = (2 + 4 * ticks evs)%nat
    /\ firstn 2 (snd (main now evs)) = snd (__init__ now)
    /\ logs (snd (main now evs)) =
         [(INFO, "Static Transform: world->odom"%string)]
    /\ List.length (joint_states (snd (main now evs))) = ticks evs
    /\ List.length (tfs (snd (main now evs))) = ticks evs.
Proof.
  intros now evs. rewrite main_eq. cbn [snd].
  destruct (spin_outputs evs (fst (__init__ now))) as (H1 & H2 & H3 & H4).
  rewrite logs_app, joint_states_app, tfs_app, !length_app, H1, H2, H3, H4.
  repeat split; reflexivity.
Qed.

(** What the handlers leave in the node. *)
Lemma spin_stored (evs : list (Event F)) (self : Node F) :
  goalpose (fst (spin evs self)) = last_goal evs (goalpose self)
  /\ turtlepose (fst (spin evs self)) = last_pose evs (turtlepose self)
  /\ tip_pos (fst (spin evs self)) = last_tilt evs (tip_pos self)
  /\ pose (fst (spin evs self)) = pose self
  /\ tip (fst (spin evs self)) = tip self
  /\ z (fst (spin evs self)) = z self.
Proof.
  revert self. induction evs as [|e evs IH]; intros self.
  - repeat split; reflexivity.
  - rewrite spin_cons. cbn [fst].
    destruct (IH (fst (dispatch e self))) as (I1 & I2 & I3 & I4 & I5 & I6).
    rewrite I1, I2, I3, I4, I5, I6.
    destruct self. destruct e; repeat split; reflexivity.
Qed.

(** X1.  In a run, a tick sends exactly four messages, in the order joint
    states, transform, odometry, velocity command.  The three stamped ones
    carry the clock reading taken at the start of the callback, and all four
    describe the node as the tick leaves it: the transform and the odometry
    agree on the position [(x, y, 0)], component by component, on the
    rotation and on the child frame, and the odometry and the velocity
    command agree on the twist. *)
Theorem tick_sends_one_consistent_bundle :
  forall (now : Time) (evs : list (Event F)) (time : Time),
    let self := node_after now evs in
    let s' := fst (timer_callback time self) in
    exists (js : JointState F) (tf : TransformStamped F) (od : Odometry F)
           (cv : Twist F),
      snd (timer_callback time self) =
        [JointStates js; Tf tf; Odom od; CmdVel cv]
      /\ stamp (js_header js) = time
      /\ stamp (ts_header tf) = time
      /\ stamp (od_header od) = time
      /\ js_position js = [wheel_pos s'; theta s'; tip_pos s']
      /\ List.length (js_name js) = List.length (js_position js)
      /\ translation (transform tf) = mkVector3 (x s') (y s') (flit 0)
      /\ position (pc_pose (od_pose od)) = mkPoint (x s') (y s') (flit 0)
      /\ pt_x (position (pc_pose (od_pose od))) =
           v3_x (translation (transform tf))
      /\ pt_y (position (pc_pose (od_pose od))) =
           v3_y (translation (transform tf))
      /\ pt_z (position (pc_pose (od_pose od))) =
           v3_z (translation (transform tf))
      /\ orientation (pc_pose (od_pose od)) = rotation (transform tf)
      /\ od_child_frame_id od = ts_child_frame_id tf
      /\ linear cv = mkVector3 (vx s') (vy s') (flit 0)
      /\ linear (tc_twist (od_twist od)) = linear cv
      /\ angular (tc_twist (od_twist od)) = angular cv.
Proof.
  intros now evs time self.
  assert (Hz : z self = flit 0).
  { unfold self, node_after. rewrite main_eq. cbn [fst].
    destruct (spin_stored evs (fst (__init__ now)))
      as (_ & _ & _ & _ & _ & H).
    rewrite H. reflexivity. }
  clearbody self. destruct self. run_callbacks_in Hz. subst.
  run_callbacks.
  do 4 eexists. split; [reflexivity|].
  repeat split; reflexivity.
Qed.

(** X3.  The position of the joint [tip] that a tick publishes is the angle
    of the most recent tilt message of the run, and 0 when there was none;
    goal and pose messages and ticks do not change it. *)
Theorem tip_joint_is_last_tilt :
  forall (now : Time) (evs : list (Event F)) (time : Time),
    let self := node_after now evs in
    tip_pos self = last_tilt evs (flit 0)
    /\ map (fun m => nth_error (js_position m) 2)
           (joint_states (snd (timer_callback time self))) =
         [Some (last_tilt evs (flit 0))]
    /\ map (fun m => nth_error (js_name m) 2)
           (joint_states (snd (timer_callback time self))) =
         [Some "tip"%string].
Proof.
  intros now evs time self.
  assert (Ht : tip_pos self = last_tilt evs (flit 0)).
  { unfold self, node_after. rewrite main_eq. cbn [fst].
    destruct (spin_stored evs (fst (__init__ now))) as (_ & _ & H & _).
    rewrite H. reflexivity. }
  split; [exact Ht|]. rewrite <- Ht. clearbody self.
  destruct self. split; reflexivity.
Qed.

(** X4.  Each subscription keeps the most recent message only: [goalpose]
    is the last goal message of the run (the empty message before the first)
    and [turtlepose] the last pose message (absent before the first).  The
    attribute [pose], which the constructor sets to an empty turtlesim pose,
    is assigned by no callback: pose messages go to [turtlepose]. *)
Theorem subscriptions_keep_last_message :
  forall (now : Time) (evs : list (Event F)),
    let self := node_after now evs in
    goalpose self = last_goal evs PoseStamped_new
    /\ turtlepose self = last_pose evs None
    /\ pose self = TPose_new
    /\ (forall (data : TPose F),
          pose (fst (update_turtlepose data self)) = TPose_new
          /\ turtlepose (fst (update_turtlepose data self)) = Some data).
Proof.
  intros now evs self.
  destruct (spin_stored evs (fst (__init__ now))) as (H1 & H2 & _ & H4 & _).
  assert (Hp : pose self = TPose_new).
  { unfold self, node_after. rewrite main_eq. cbn [fst]. rewrite H4.
    reflexivity. }
  split. { unfold self, node_after. rewrite main_eq. cbn [fst].
           rewrite H1. reflexivity. }
  split. { unfold self, node_after. rewrite main_eq. cbn [fst].
           rewrite H2. reflexivity. }
  split; [exact Hp|].
  intros data. rewrite <- Hp. clearbody self. destruct self.
  split; reflexivity.
Qed.

(** The integrated attributes after a callback only depend on the
    integrated attributes and the constants before it. *)
Lemma dispatch_motion (e : Event F) (time : Time) (s1 s2 : Node F) :
  motion s1 = motion s2 -> constants s1 = constants s2 ->
  motion (fst (dispatch e s1)) =
    motion (fst (spin (repeat (Tick time) (ticks [e])) s2)).
Proof.
  intros Hm Hc. destruct s1, s2. unfold motion, constants in Hm, Hc.
  run_callbacks_in Hm. run_callbacks_in Hc.
  injection Hm as -> -> -> -> -> ->.
  injection Hc as -> -> -> -> -> -> -> -> -> -> -> ->.
  destruct e; reflexivity.
Qed.

Lemma spin_motion (evs : list (Event F)) (time : Time) (s1 s2 : Node F) :
  motion s1 = motion s2 -> constants s1 = constants s2 ->
  motion (fst (spin evs s1)) =
    motion (fst (spin (repeat (Tick time) (ticks evs)) s2)).
Proof.
  revert s1 s2. induction evs as [|e evs IH]; intros s1 s2 Hm Hc.
  - exact Hm.
  - rewrite spin_cons, ticks_cons, repeat_app, spin_app. cbn [fst].
    apply IH.
    + apply dispatch_motion; assumption.
    + rewrite dispatch_constants, spin_constants. exact Hc.
Qed.

(** X5.  The wheel angle, position, heading and velocity after a run depend
    on the number of ticks in it and on nothing else: not on the goal, pose
    and tilt messages received, where they fall between the ticks, or the
    clock readings.  They are those of a run of as many ticks alone. *)
Theorem motion_depends_on_tick_count_only :
  forall (now now' time' : Time) (evs : list (Event F)),
    motion (node_after now evs) =
      motion (node_after now' (repeat (Tick time') (ticks evs)))
    /\ constants (node_after now evs) =
         constants (node_after now' (repeat (Tick time') (ticks evs))).
Proof.
  intros now now' time' evs. split.
  - unfold node_after. rewrite !main_eq. cbn [fst].
    apply spin_motion; reflexivity.
  - rewrite !node_after_constants. reflexivity.
Qed.

End Runs.

(** ** The approach to the target in exact real arithmetic *)

(** The point [(a, b)] in polar form: [atan2 b a] is its angle. *)
Lemma atan_polar (a t : R) :
  0 < a ->
  R_sqrt.sqrt (a ^ 2 + (a * t) ^ 2) = a * R_sqrt.sqrt (1 + t²)
  /\ 0 < R_sqrt.sqrt (1 + t²).
Proof.
  intros Ha.
  assert (Hq : 0 < R_sqrt.sqrt (1 + t²)).
  { apply sqrt_lt_R0. unfold Rsqr. nra. }
  split; [|exact Hq].
  apply sqrt_lem_1.
  - nra.
  - nra.
  - assert (Hs : R_sqrt.sqrt (1 + t²) * R_sqrt.sqrt (1 + t²) = 1 + t²).
    { apply sqrt_sqrt. unfold Rsqr. nra. }
    unfold Rsqr in *. nra.
Qed.

Lemma atan2_polar (a b : R) :
  cos (atan2 b a) * R_sqrt.sqrt (a ^ 2 + b ^ 2) = a
  /\ sin (atan2 b a) * R_sqrt.sqrt (a ^ 2 + b ^ 2) = b.
Proof.
  unfold atan2.
  destruct (Rlt_dec 0 a) as [Hpos | Hnpos].
  - destruct (atan_polar (b / a) Hpos) as [Hd Hq].
    replace (a * (b / a)) with b in Hd by (field; lra).
    rewrite Hd, cos_atan, sin_atan. split; field; lra.
  - destruct (Rlt_dec a 0) as [Hneg | Hnneg].
    + assert (Hma : 0 < - a) by lra.
      destruct (atan_polar (b / a) Hma) as [Hd Hq].
      replace (- a * (b / a)) with (- b) in Hd by (field; lra).
      replace ((- a) ^ 2 + (- b) ^ 2) with (a ^ 2 + b ^ 2) in Hd by ring.
      rewrite Hd.
      destruct (Rle_dec 0 b).
      * rewrite neg_cos, neg_sin, cos_atan, sin_atan. split; field; lra.
      * unfold Rminus.
        rewrite cos_plus, sin_plus, cos_neg, sin_neg, cos_PI, sin_PI,
          cos_atan, sin_atan.
        split; field; lra.
    + assert (Ha : a = 0) by lra. subst a.
      replace (0 ^ 2 + b ^ 2) with (b ^ 2) by ring.
      destruct (Rlt_dec 0 b) as [Hb | Hb].
      * rewrite sqrt_pow2 by lra. rewrite cos_PI2, sin_PI2. split; ring.
      * destruct (Rlt_dec b 0) as [Hb' | Hb'].
        -- replace (b ^ 2) with ((- b) ^ 2) by ring.
           rewrite sqrt_pow2 by lra.
           replace (- PI / 2) with (- (PI / 2)) by field.
           rewrite cos_neg, sin_neg, cos_PI2, sin_PI2. split; ring.
        -- assert (Hb0 : b = 0) by lra. subst b.
           replace (0 ^ 2) with 0 by ring.
           rewrite sqrt_0. split; ring.
Qed.

(** Scaling a point by a positive factor keeps its angle. *)
Lemma atan2_scale (k a b : R) :
  0 < k -> atan2 (k * b) (k * a) = atan2 b a.
Proof.
  intros Hk. unfold atan2.
  destruct (Rlt_dec 0 a) as [Hpos | Hnpos].
  - destruct (Rlt_dec 0 (k * a)) as [_ | H]; [|exfalso; nra].
    f_equal. field. lra.
  - destruct (Rlt_dec 0 (k * a)) as [H | _]; [exfalso; nra|].
    destruct (Rlt_dec a 0) as [Hneg | Hnneg].
    + destruct (Rlt_dec (k * a) 0) as [_ | H]; [|exfalso; nra].
      replace (k * b / (k * a)) with (b / a) by (field; lra).
      destruct (Rle_dec 0 b) as [Hb | Hb];
        destruct (Rle_dec 0 (k * b)) as [Hkb | Hkb];
        try reflexivity; exfalso; nra.
    + destruct (Rlt_dec (k * a) 0) as [H | _]; [exfalso; nra|].
      destruct (Rlt_dec 0 b) as [Hb | Hb];
        destruct (Rlt_dec 0 (k * b)) as [Hkb | Hkb];
        try reflexivity; try (exfalso; nra).
      destruct (Rlt_dec b 0) as [Hb' | Hb'];
        destruct (Rlt_dec (k * b) 0) as [Hkb' | Hkb'];
        try reflexivity; exfalso; nra.
Qed.

(** A tick leaves the node aimed at the target, whatever it was before. *)
Lemma tick_aimed (time : Time) (self : Node R) :
  let s' := fst (timer_callback time self) in
  aimed s' /\ step_length s' = step_length self
  /\ targetX s' = targetX self /\ targetY s' = targetY self.
Proof.
  destruct self. unfold aimed, step_length. run_callbacks.
  cbn [fadd fsub fmul fatan2 fcos fsin R_PyFloat].
  repeat split; reflexivity.
Qed.

(** One tick from an aimed node. *)
Lemma aimed_step (time : Time) (self : Node R) :
  aimed self ->
  let s' := fst (timer_callback time self) in
  goal_distance s' = Rabs (goal_distance self - step_length self)
  /\ (x s' - x self) ^ 2 + (y s' - y self) ^ 2 = step_length self ^ 2
  /\ x s' = x self + step_length self * cos (theta self)
  /\ y s' = y self + step_length self * sin (theta self)
  /\ (step_length self < goal_distance self -> theta s' = theta self).
Proof.
  destruct self as [wp tp tp' px py pz th ox oy oz r wX wY tX tY w sw
                    vx0 vy0 fr h gp po tpo].
  unfold aimed, goal_distance, step_length. run_callbacks.
  cbn [fadd fsub fmul fatan2 fcos fsin R_PyFloat].
  intros (Hth & Hvx & Hvy). subst vx0 vy0.
  destruct (atan2_polar (tX - px) (tY - py)) as [Hc Hs].
  rewrite <- Hth in Hc, Hs.
  pose proof (sin2_cos2 th) as Hsc. unfold Rsqr in Hsc.
  set (d := R_sqrt.sqrt ((tX - px) ^ 2 + (tY - py) ^ 2)) in *.
  set (c := cos th) in *. set (s := sin th) in *.
  assert (Hd : 0 <= d) by apply sqrt_pos.
  assert (Ha : tX - (px + r * w * c * h) = c * (d - r * w * h)) by lra.
  assert (Hb : tY - (py + r * w * s * h) = s * (d - r * w * h)) by lra.
  split.
  { rewrite Ha, Hb.
    replace ((c * (d - r * w * h)) ^ 2 + (s * (d - r * w * h)) ^ 2)
      with (Rsqr (d - r * w * h)).
    - apply sqrt_Rsqr_abs.
    - unfold Rsqr.
      transitivity ((s * s + c * c) * ((d - r * w * h) * (d - r * w * h))).
      + rewrite Hsc. ring.
      + ring. }
  split.
  { transitivity ((s * s + c * c) * (r * w * h) ^ 2).
    - ring.
    - rewrite Hsc. ring. }
  split; [ring|]. split; [ring|].
  intros Hfar. rewrite Ha, Hb.
  destruct (Rle_lt_or_eq_dec 0 d Hd) as [Hdpos | Hd0].
  - replace (c * (d - r * w * h))
      with ((d - r * w * h) / d * (tX - px)) by (rewrite <- Hc; field; lra).
    replace (s * (d - r * w * h))
      with ((d - r * w * h) / d * (tY - py)) by (rewrite <- Hs; field; lra).
    rewrite atan2_scale; [symmetry; exact Hth|].
    apply Rdiv_lt_0_compat; lra.
  - rewrite <- Hd0 in Hc, Hs, Hfar.
    assert (HX : tX - px = 0) by lra. assert (HY : tY - py = 0) by lra.
    rewrite HX, HY, atan2_origin in Hth.
    subst c s. rewrite Hth, cos_0, sin_0.
    rewrite atan2_pos by lra.
    replace (0 * (d - r * w * h) / (1 * (d - r * w * h))) with 0
      by (field; lra).
    apply atan_0.
Qed.

Lemma run_step_length (now : Time) (evs : list (Event R)) :
  step_length (node_after now evs) = 0.0025888.
Proof.
  destruct (run_values now evs) as (Hr & Hw & Hd & _).
  unfold step_length. rewrite Hr, Hw, Hd. lra.
Qed.

Lemma start_distance_bounds :
  3.7 < R_sqrt.sqrt (3.4474112 ^ 2 + 1.45 ^ 2) < 3.8.
Proof.
  split.
  - rewrite <- (sqrt_pow2 3.7) at 1 by lra. apply sqrt_lt_1_alt. lra.
  - rewrite <- (sqrt_pow2 3.8) at 1 by lra. apply sqrt_lt_1_alt. lra.
Qed.

Lemma first_tick_distance (now time : Time) :
  goal_distance (fst (timer_callback time (fst (@__init__ R _ now)))) =
    R_sqrt.sqrt (3.4474112 ^ 2 + 1.45 ^ 2).
Proof.
  destruct (first_tick_values now time) as (Hx & Hy & _).
  destruct (tick_aimed time (fst (@__init__ R _ now))) as (_ & _ & HX & HY).
  destruct (init_values now) as (_ & _ & _ & _ & _ & _ & _ & IX & IY & _).
  cbv zeta in Hx, Hy, HX, HY, IX, IY.
  unfold goal_distance. rewrite HX, HY, IX, IY, Hx, Hy.
  f_equal. lra.
Qed.

(** X6.  From the second tick on, a tick changes the distance [d] between
    the position and the target to [|d - s|], where [s] is the step length
    [wheel_radius * wheel_omg * dt], and moves the position by exactly [s]:
    the node steps towards the target, and past it when it is nearer than
    one step.  In a run the step length is 0.0025888. *)
Theorem tick_changes_goal_distance_by_one_step :
  (forall (t1 t2 : Time) (self : Node R),
     let s1 := fst (timer_callback t1 self) in
     let s2 := fst (timer_callback t2 s1) in
     goal_distance s2 = Rabs (goal_distance s1 - step_length self)
     /\ (x s2 - x s1) ^ 2 + (y s2 - y s1) ^ 2 = step_length self ^ 2)
  /\ (forall (now : Time) (evs : list (Event R)),
        step_length (node_after now evs) = 0.0025888).
Proof.
  split; [|exact run_step_length].
  intros t1 t2 self s1 s2.
  destruct (tick_aimed t1 self) as (Ha & Hs & _). fold s1 in Ha, Hs.
  destruct (aimed_step t2 Ha) as (Hd & Hm & _). fold s2 in Hd, Hm.
  rewrite Hs in Hd, Hm. split; assumption.
Qed.

(** X7.  While the target is farther than one step, a tick keeps the
    heading of the tick before it and moves the position by one step along
    that heading: the node approaches the target on a straight line. *)
Theorem heading_kept_while_far :
  forall (t1 t2 : Time) (self : Node R),
    let s1 := fst (timer_callback t1 self) in
    let s2 := fst (timer_callback t2 s1) in
    step_length self < goal_distance s1 ->
    theta s2 = theta s1
    /\ x s2 = x s1 + step_length self * cos (theta s1)
    /\ y s2 = y s1 + step_length self * sin (theta s1)
    /\ goal_distance s2 = goal_distance s1 - step_length self.
Proof.
  intros t1 t2 self s1 s2 Hfar.
  destruct (tick_aimed t1 self) as (Ha & Hs & _). fold s1 in Ha, Hs.
  destruct (aimed_step t2 Ha) as (Hd & _ & Hx & Hy & Ht).
  fold s2 in Hd, Hx, Hy, Ht. rewrite Hs in Hd, Hx, Hy, Ht.
  split; [apply Ht; exact Hfar|]. split; [exact Hx|]. split; [exact Hy|].
  rewrite Hd. apply Rabs_pos_eq. lra.
Qed.

(** X7 at the first two ticks of a run. *)
Lemma heading_kept_at_start :
  step_length (fst (@__init__ R _ epoch)) <
    goal_distance (fst (timer_callback epoch (fst (@__init__ R _ epoch))))
  /\ theta (fst (timer_callback epoch
             (fst (timer_callback epoch (fst (@__init__ R _ epoch)))))) =
     theta (fst (timer_callback epoch (fst (@__init__ R _ epoch)))).
Proof.
  assert (Hfar : step_length (fst (@__init__ R _ epoch)) <
            goal_distance
              (fst (timer_callback epoch (fst (@__init__ R _ epoch))))).
  { rewrite first_tick_distance.
    pose proof (run_step_length epoch []) as Hs.
    unfold node_after in Hs. rewrite main_eq in Hs. cbn [fst spin] in Hs.
    rewrite Hs. pose proof start_distance_bounds. lra. }
  split; [exact Hfar|].
  exact (proj1 (@heading_kept_while_far epoch epoch
                  (fst (@__init__ R _ epoch)) Hfar)).
Defined.

(** X8.  Once the position is within one step of the target, every later
    tick leaves it within one step: the node steps over the target and back,
    at distance [s - d] after distance [d], and does not come to rest. *)
Theorem stays_within_one_step_of_target :
  forall (t1 t2 : Time) (self : Node R),
    let s1 := fst (timer_callback t1 self) in
    let s2 := fst (timer_callback t2 s1) in
    goal_distance s1 <= step_length self ->
    goal_distance s2 = step_length self - goal_distance s1
    /\ goal_distance s2 <= step_length self.
Proof.
  intros t1 t2 self s1 s2 Hnear.
  destruct (tick_aimed t1 self) as (Ha & Hs & _). fold s1 in Ha, Hs.
  destruct (aimed_step t2 Ha) as (Hd & _). fold s2 in Hd.
  rewrite Hs in Hd.
  assert (H0 : 0 <= goal_distance s1) by apply sqrt_pos.
  rewrite Hd, Rabs_left1 by lra. lra.
Qed.

(** X8 at a node that stands on its target. *)
Lemma stays_near_on_goal :
  goal_distance (fst (timer_callback epoch node_on_goal)) <=
    step_length node_on_goal
  /\ goal_distance (fst (timer_callback epoch
                      (fst (timer_callback epoch node_on_goal)))) <=
       step_length node_on_goal.
Proof.
  assert (Hnear : goal_distance (fst (timer_callback epoch node_on_goal)) <=
                  step_length node_on_goal).
  { unfold goal_distance, step_length. cbv [node_on_goal]. run_callbacks.
    cbn [fadd fsub fmul fatan2 fcos fsin R_PyFloat].
    replace ((1 - (1 + 0 * (1 / 100))) ^ 2 + (2 - (2 + 0 * (1 / 100))) ^ 2)
      with 0 by lra.
    rewrite sqrt_0. lra. }
  split; [exact Hnear|].
  exact (proj2 (@stays_within_one_step_of_target epoch epoch
                  node_on_goal Hnear)).
Defined.

(** *** The whole approach *)

Lemma node_after_last (now : Time) (evs : list (Event R)) (e : Event R) :
  node_after now (evs ++ [e]) = fst (dispatch e (node_after now evs)).
Proof.
  rewrite node_after_app, spin_cons. reflexivity.
Qed.

Lemma tick_constants (time : Time) (self : Node R) :
  constants (fst (timer_callback time self)) = constants self.
Proof. destruct self. reflexivity. Qed.

Lemma message_keeps_motion (e : Event R) (self : Node R) :
  ticks [e] = 0%nat ->
  motion (fst (dispatch e self)) = motion self
  /\ constants (fst (dispatch e self)) = constants self.
Proof.
  intros H. split; [|apply dispatch_constants].
  destruct e; [discriminate H | reflexivity | reflexivity | reflexivity].
Qed.

Lemma motion_ext (s s' : Node R) :
  motion s = motion s' -> constants s = constants s' ->
  x s = x s' /\ y s = y s' /\ theta s = theta s'
  /\ goal_distance s = goal_distance s'
  /\ (aimed s' -> aimed s).
Proof.
  destruct s, s'. unfold motion, constants, aimed, goal_distance.
  run_callbacks. intros Hm Hc.
  injection Hm as -> -> -> -> -> ->.
  injection Hc as -> -> -> -> -> -> -> -> -> -> -> ->.
  repeat split; try reflexivity; tauto.
Qed.

(** Before the first tick the integrated attributes are the ones of the
    constructor, so the first tick of any run is the first tick of all. *)
Lemma first_tick_of_run (now : Time) (evs : list (Event R)) (time : Time) :
  ticks evs = 0%nat ->
  motion (fst (timer_callback time (node_after now evs))) =
    motion (fst (timer_callback time (fst (@__init__ R _ now))))
  /\ constants (fst (timer_callback time (node_after now evs))) =
       constants (fst (@__init__ R _ now)).
Proof.
  intros H0.
  assert (Hm : motion (node_after now evs) = motion (fst (@__init__ R _ now))).
  { unfold node_after. rewrite main_eq. cbn [fst].
    rewrite (@spin_motion R _ evs time _ (fst (@__init__ R _ now)) eq_refl eq_refl).
    rewrite H0. reflexivity. }
  pose proof (node_after_constants now evs) as Hc.
  split.
  - pose proof (@dispatch_motion R _ (Tick time) time _ _ Hm Hc) as H.
    cbn [ticks filter List.length repeat] in H. rewrite spin_cons in H.
    exact H.
  - rewrite tick_constants. exact Hc.
Qed.

Lemma approach_invariant (now : Time) (evs : list (Event R)) :
  forall m : nat,
    ticks evs = S m ->
    INR m * 0.0025888 < R_sqrt.sqrt (3.4474112 ^ 2 + 1.45 ^ 2) ->
    let self := node_after now evs in
    aimed self
    /\ theta self = atan2 1.45 3.4474112
    /\ goal_distance self =
         R_sqrt.sqrt (3.4474112 ^ 2 + 1.45 ^ 2) - INR m * 0.0025888
    /\ x self = 0.0025888 + INR m * 0.0025888 * cos (atan2 1.45 3.4474112)
    /\ y self = INR m * 0.0025888 * sin (atan2 1.45 3.4474112).
Proof.
  induction evs as [|e evs IH] using rev_ind; intros m Hn Hfar.
  - discriminate Hn.
  - cbv zeta. rewrite node_after_last. rewrite ticks_app in Hn.
    destruct (Nat.eq_dec (ticks [e]) 0) as [Hmsg | Htick].
    + (* a message: nothing that matters changes *)
      rewrite Hmsg, Nat.add_0_r in Hn.
      destruct (IH m Hn Hfar) as (Ia & It & Id & Ix & Iy).
      destruct (message_keeps_motion e (node_after now evs) Hmsg) as [Hm Hc].
      destruct (@motion_ext _ _ Hm Hc) as (Ex & Ey & Et & Ed & Ea).
      rewrite Ex, Ey, Et, Ed. auto.
    + destruct e as [time | | | ]; try (exfalso; apply Htick; reflexivity).
      change (ticks [Tick time]) with 1%nat in Hn.
      change (dispatch (Tick time) (node_after now evs))
        with (timer_callback time (node_after now evs)).
      destruct (tick_aimed time (node_after now evs)) as (Ha & _).
      split; [exact Ha|].
      destruct m as [|m].
      * (* the first tick of the run *)
        assert (H0 : ticks evs = 0%nat) by lia.
        destruct (first_tick_of_run now evs time H0) as [Hm Hc].
        destruct (@motion_ext _ _ Hm
                    (eq_trans Hc (eq_sym (tick_constants time _))))
          as (Ex & Ey & Et & Ed & _).
        destruct (first_tick_values now time) as (Hx & Hy & Ht).
        cbv zeta in Hx, Hy, Ht.
        rewrite Ex, Ey, Et, Ed, Hx, Hy, Ht, first_tick_distance.
        change (INR 0) with 0.
        split; [f_equal; lra|]. split; [lra|]. split; lra.
      * (* a later tick *)
        assert (Hprev : ticks evs = S m) by lia.
        rewrite S_INR in Hfar.
        assert (Hfar' : INR m * 0.0025888 <
                        R_sqrt.sqrt (3.4474112 ^ 2 + 1.45 ^ 2)).
        { pose proof (pos_INR m). lra. }
        destruct (IH m Hprev Hfar') as (Ia & It & Id & Ix & Iy).
        destruct (aimed_step time Ia) as (Sd & _ & Sx & Sy & St).
        rewrite (run_step_length now evs) in Sd, Sx, Sy, St.
        rewrite S_INR.
        split; [rewrite St, It; [reflexivity | lra]|].
        split; [rewrite Sd, Id, Rabs_pos_eq; lra|].
        split; [rewrite Sx, Ix, It; lra | rewrite Sy, Iy, It; lra].
Qed.

(** X9.  In every run, after the first tick and as long as the steps taken
    since do not add up to the distance that was left after the first tick
    (about 3.74, so for more than 1400 ticks), the heading stays at
    [atan2(1.45, 3.4474112)], the position advances by 0.0025888 per tick
    along that heading from (0.0025888, 0), and the distance to the target
    shrinks by 0.0025888 per tick, whatever messages arrive in between. *)
Theorem straight_line_approach :
  forall (now : Time) (evs : list (Event R)),
    (0 < ticks evs)%nat ->
    INR (ticks evs - 1) * 0.0025888 <
      R_sqrt.sqrt (3.4474112 ^ 2 + 1.45 ^ 2) ->
    let self := node_after now evs in
    let k := INR (ticks evs - 1) in
    theta self = atan2 1.45 3.4474112
    /\ goal_distance self =
         R_sqrt.sqrt (3.4474112 ^ 2 + 1.45 ^ 2) - k * 0.0025888
    /\ x self = 0.0025888 + k * 0.0025888 * cos (atan2 1.45 3.4474112)
    /\ y self = k * 0.0025888 * sin (atan2 1.45 3.4474112).
Proof.
  intros now evs Hpos Hfar self k.
  destruct (ticks evs) as [|m] eqn:Hn; [lia|].
  subst k. replace (S m - 1)%nat with m in * by lia.
  destruct (approach_invariant now evs Hn Hfar) as (_ & H).
  exact H.
Qed.

(** X9 at a run of three ticks with a goal message after the first. *)
Lemma straight_line_three_ticks :
  (0 < ticks three_ticks)%nat
  /\ INR (ticks three_ticks - 1) * 0.0025888 <
       R_sqrt.sqrt (3.4474112 ^ 2 + 1.45 ^ 2)
  /\ theta (node_after epoch three_ticks) = atan2 1.45 3.4474112.
Proof.
  assert (Hpos : (0 < ticks three_ticks)%nat) by (cbv; lia).
  assert (Hfar : INR (ticks three_ticks - 1) * 0.0025888 <
                 R_sqrt.sqrt (3.4474112 ^ 2 + 1.45 ^ 2)).
  { change (ticks three_ticks - 1)%nat with 2%nat.
    pose proof start_distance_bounds. cbn [INR]. lra. }
  split; [exact Hpos|]. split; [exact Hfar|].
  exact (proj1 (@straight_line_approach epoch three_ticks Hpos Hfar)).
Defined.
